(** * BlackRoad Task Manager: the storage and query engine of
    [src/task_manager.py], embedded and verified.

    The engine is a thin layer over one SQLite table.  The development
    models the table as a list of rows in rowid order together with the
    AUTOINCREMENT counter, each engine method as a function on that
    state, and the SQL statements by their documented meaning:
    - [WHERE] as a filter, [ORDER BY] as a sort on the ordering terms
      (SQLite leaves the order of rows with equal terms open; the
      theorems below do not depend on it);
    - text compared with the default BINARY collation, that is byte by
      byte; a text is a [string] holding the bytes of its UTF-8 form, one
      [ascii] per character for ASCII text;
    - [LIKE] with its two wildcards and its folding of the ASCII letters,
      on texts without NUL and patterns within SQLite's length limit.
    Reads of the clock ([datetime.now], [date.today]) are inputs of the
    operations.  Failures of the storage itself (I/O, resource limits)
    are not modelled: the store is a total, pure state.  The theorems
    name the limits they need ([int64], [searchable]).

    The command surface follows the engine: the command functions on
    the parsed arguments, with what they print as their result.  Two
    failures at its rim are part of it: an id that sqlite3 cannot bind,
    and an export path that does not open. *)

From Stdlib Require Import ZArith String Ascii.
From stdpp Require Import base tactics option list sorting strings pretty gmap.

Local Open Scope string_scope.
Local Open Scope Z_scope.

(** ** Exceptions *)

(** The only exception the engine's own code can raise. *)
Inductive exn : Set := ValueError.

Inductive res (A : Type) : Type :=
  | Ok (a : A)
  | Raise (e : exn).
Arguments Ok {A} a.
Arguments Raise {A} e.

Global Instance res_ret : MRet res := fun A a => Ok a.

Global Instance res_bind : MBind res := fun A B f m =>
  match m with
  | Ok a => f a
  | Raise e => Raise e
  end.

(** ** Enumerations *)

Inductive Priority : Set := LOW | MEDIUM | HIGH | URGENT.

Inductive Status : Set := PENDING | IN_PROGRESS | DONE | CANCELLED.

Definition Priority_value (p : Priority) : string :=
  match p with
  | LOW => "low"
  | MEDIUM => "medium"
  | HIGH => "high"
  | URGENT => "urgent"
  end.

Definition Status_value (s : Status) : string :=
  match s with
  | PENDING => "pending"
  | IN_PROGRESS => "in_progress"
  | DONE => "done"
  | CANCELLED => "cancelled"
  end.

(** [Priority(text)]: the member with that value, or [ValueError]. *)
Definition Priority_of (v : string) : res Priority :=
  if String.eqb v "low" then Ok LOW
  else if String.eqb v "medium" then Ok MEDIUM
  else if String.eqb v "high" then Ok HIGH
  else if String.eqb v "urgent" then Ok URGENT
  else Raise ValueError.

(** [Status(text)]. *)
Definition Status_of (v : string) : res Status :=
  if String.eqb v "pending" then Ok PENDING
  else if String.eqb v "in_progress" then Ok IN_PROGRESS
  else if String.eqb v "done" then Ok DONE
  else if String.eqb v "cancelled" then Ok CANCELLED
  else Raise ValueError.

Definition is_ok {A} (r : res A) : bool :=
  match r with Ok _ => true | Raise _ => false end.

(** Python truthiness of an [Optional[str]]: [None] and the empty text
    are both false. *)
Definition nonempty (s : string) : bool :=
  match s with EmptyString => false | String _ _ => true end.

Definition truthy (o : option string) : option string :=
  match o with
  | Some s => if nonempty s then Some s else None
  | None => None
  end.

(** ** Calendar dates *)

(** A [datetime.date]; dates compare as (year, month, day). *)
Record date : Set := mkdate { year : Z; month : Z; day : Z }.

Definition date_ltb (a b : date) : bool :=
  (year a <? year b)
  || ((year a =? year b)
      && ((month a <? month b)
          || ((month a =? month b) && (day a <? day b)))).

Definition is_leap (y : Z) : bool :=
  (y mod 4 =? 0) && (negb (y mod 100 =? 0) || (y mod 400 =? 0)).

Definition days_in_month (y m : Z) : Z :=
  if m =? 2 then (if is_leap y then 29 else 28)
  else if (m =? 4) || (m =? 6) || (m =? 9) || (m =? 11) then 30
  else 31.

Definition digit (c : ascii) : option Z :=
  let n := Z.of_N (N_of_ascii c) in
  if (48 <=? n) && (n <=? 57) then Some (n - 48) else None.

Fixpoint digits (n : nat) (s : string) (acc : Z) : option (Z * string) :=
  match n with
  | O => Some (acc, s)
  | S n' =>
      match s with
      | String c s' =>
          match digit c with
          | Some d => digits n' s' (10 * acc + d)
          | None => None
          end
      | EmptyString => None
      end
  end.

Definition dash (s : string) : option string :=
  match s with
  | String "-" s' => Some s'
  | _ => None
  end.

(** [date.fromisoformat] on the form [YYYY-MM-DD], the one form every
    Python 3 release accepts and the one the command surface announces
    for [--deadline]; [None] stands for [ValueError].  Later releases
    accept further ISO 8601 forms, so the engine below takes the parser
    as a parameter and this one serves as its instance. *)
Definition date_fromisoformat (s : string) : option date :=
  '(y, s1) ← digits 4 s 0;
  s2 ← dash s1;
  '(m, s3) ← digits 2 s2 0;
  s4 ← dash s3;
  '(d, s5) ← digits 2 s4 0;
  if nonempty s5 then None
  else if (1 <=? y) && (1 <=? m) && (m <=? 12)
          && (1 <=? d) && (d <=? days_in_month y m)
       then Some (mkdate y m d)
       else None.

(** ** Tasks *)

Module Task.

Record t : Type := mk {
  title : string;
  description : string;
  priority : Priority;
  status : Status;
  deadline : option string;
  tags : list string;
  notes : string;
  created_at : string;
  updated_at : string;
  id : option Z
}.

Section Overdue.
Variable fromisoformat : string -> option date.
Variable today : date.

Definition closed (s : Status) : bool :=
  match s with
  | DONE | CANCELLED => true
  | PENDING | IN_PROGRESS => false
  end.

(** True if the deadline has passed and the task is still open. *)
Definition is_overdue (self : t) : bool :=
  match truthy (deadline self) with
  | None => false
  | Some d =>
      if closed (status self) then false
      else match fromisoformat d with
           | Some dl => date_ltb dl today
           | None => false
           end
  end.
End Overdue.

End Task.

(** ** The table *)

(** One row of table [tasks].  [id] is the rowid.  The engine's only
    INSERT supplies every column, so the text columns are never NULL
    except [deadline]; [tags] is given as the list of texts whose JSON
    array the column holds ([json.dumps] on write, [json.loads] on
    read).  [priority] and [status] are plain TEXT: the schema carries
    no CHECK constraint. *)
Module Row.

Record t : Type := mk {
  id : Z;
  title : string;
  description : string;
  priority : string;
  status : string;
  deadline : option string;
  tags : list string;
  notes : string;
  created_at : string;
  updated_at : string
}.

Definition set_status (new_status now : string) (r : t) : t :=
  mk (id r) (title r) (description r) (priority r) new_status
     (deadline r) (tags r) (notes r) (created_at r) now.

End Row.

(** The database file: the rows in rowid order and the largest rowid
    ever handed out (the table's entry in [sqlite_sequence]). *)
Record Db : Type := mkDb { rows : list Row.t; seq : Z }.

Definition max_rowid (l : list Row.t) : Z :=
  foldr (fun r m => Z.max (Row.id r) m) 0 l.

(** AUTOINCREMENT: one more than the largest rowid that ever existed. *)
Definition next_rowid (db : Db) : Z :=
  Z.max (seq db) (max_rowid (rows db)) + 1.

(** ** SQL expressions *)

(** Lower case of the 26 ASCII letters, every other character kept. *)
Definition lower (c : ascii) : ascii :=
  let n := N_of_ascii c in
  if ((65 <=? n) && (n <=? 90))%N then ascii_of_N (n + 32) else c.

(** [text LIKE pattern]: [%] matches any run of characters, [_] any one
    character, every other character itself up to ASCII case.  This is
    LIKE on texts without NUL (SQLite reads a text up to its first NUL)
    and on patterns of at most 50000 bytes (a longer one makes SQLite
    raise); [_] takes one byte here, which is one character on ASCII
    text. *)
Fixpoint like (pattern text : string) : bool :=
  match pattern with
  | EmptyString => negb (nonempty text)
  | String p pattern' =>
      if Ascii.eqb p "%" then
        (fix any (text : string) : bool :=
           like pattern' text
           || match text with
              | EmptyString => false
              | String _ text' => any text'
              end) text
      else
        match text with
        | EmptyString => false
        | String c text' =>
            (Ascii.eqb p "_" || Ascii.eqb (lower p) (lower c))
            && like pattern' text'
        end
  end.

(** [CASE priority WHEN 'urgent' THEN 1 WHEN 'high' THEN 2
     WHEN 'medium' THEN 3 ELSE 4 END] *)
Definition priority_case (p : string) : Z :=
  if String.eqb p "urgent" then 1
  else if String.eqb p "high" then 2
  else if String.eqb p "medium" then 3
  else 4.

(** Ascending with [NULLS LAST]. *)
Definition nulls_last (a b : option string) : comparison :=
  match a, b with
  | Some x, Some y => String.compare x y
  | Some _, None => Lt
  | None, Some _ => Gt
  | None, None => Eq
  end.

Definition then_by (c : comparison) (c' : comparison) : comparison :=
  match c with Eq => c' | _ => c end.

(** The three ordering terms of the query, compared left to right. *)
Definition order_by (r1 r2 : Row.t) : comparison :=
  then_by (priority_case (Row.priority r1) ?= priority_case (Row.priority r2))
    (then_by (nulls_last (Row.deadline r1) (Row.deadline r2))
       (String.compare (Row.created_at r1) (Row.created_at r2))).

Definition precedes (r1 r2 : Row.t) : Prop := order_by r1 r2 <> Gt.

Global Instance precedes_dec r1 r2 : Decision (precedes r1 r2).
Proof.
  unfold precedes. destruct (order_by r1 r2); [left | left | right]; congruence.
Defined.

(** ** JSON values and the file system *)

Local Unset Elimination Schemes.
Inductive json : Type :=
  | JNull
  | JInt (n : Z)
  | JString (s : string)
  | JArray (items : list json)
  | JObject (members : list (string * json)).
Local Set Elimination Schemes.

Definition json_opt {A} (f : A -> json) (o : option A) : json :=
  match o with Some a => f a | None => JNull end.

(** [dataclasses.asdict]: the fields in declaration order.  A member of
    a [str] enumeration goes to JSON as its value. *)
Definition asdict (t : Task.t) : list (string * json) :=
  [ ("title", JString (Task.title t));
    ("description", JString (Task.description t));
    ("priority", JString (Priority_value (Task.priority t)));
    ("status", JString (Status_value (Task.status t)));
    ("deadline", json_opt JString (Task.deadline t));
    ("tags", JArray (JString <$> Task.tags t));
    ("notes", JString (Task.notes t));
    ("created_at", JString (Task.created_at t));
    ("updated_at", JString (Task.updated_at t));
    ("id", json_opt JInt (Task.id t)) ].

(** [d[key] = value] on a dict that keeps insertion order. *)
Fixpoint setitem (key : string) (value : json) (d : list (string * json))
  : list (string * json) :=
  match d with
  | [] => [(key, value)]
  | (k, v) :: d' =>
      if String.eqb k key then (k, value) :: d'
      else (k, v) :: setitem key value d'
  end.

Fixpoint getitem (key : string) (d : list (string * json)) : option json :=
  match d with
  | [] => None
  | (k, v) :: d' => if String.eqb k key then Some v else getitem key d'
  end.

(** ** The engine *)

Module TaskManager.

(** [CREATE TABLE IF NOT EXISTS]: a new file gets the empty table, an
    existing one is left as it is. *)
Definition _init_db (file : option Db) : Db :=
  match file with
  | Some db => db
  | None => mkDb [] 0
  end.

(** The two enumeration constructors may raise; the columns that the
    source guards with [or ""] are never NULL here. *)
Definition _row_to_task (row : Row.t) : res Task.t :=
  p ← Priority_of (Row.priority row);
  s ← Status_of (Row.status row);
  mret (Task.mk (Row.title row) (Row.description row) p s
          (Row.deadline row) (Row.tags row) (Row.notes row)
          (Row.created_at row) (Row.updated_at row) (Some (Row.id row))).

(** Persist a new task and return it with its assigned id. *)
Definition add (now : string) (db : Db)
    (title description priority : string) (deadline : option string)
    (tags : option (list string)) (notes : string) : res (Task.t * Db) :=
  p ← Priority_of priority;
  let tags := default [] tags in
  let lastrowid := next_rowid db in
  let row := Row.mk lastrowid title description (Priority_value p)
               (Status_value PENDING) deadline tags notes now now in
  mret (Task.mk title description p PENDING deadline tags notes now now
          (Some lastrowid),
        mkDb (rows db ++ [row]) lastrowid).

(** The WHERE clause built from the supplied filters. *)
Definition where_ (status priority search : option string)
    (r : Row.t) : bool :=
  match truthy status with
  | Some s => String.eqb (Row.status r) s
  | None => true
  end
  && match truthy priority with
     | Some p => String.eqb (Row.priority r) p
     | None => true
     end
  && match truthy search with
     | Some term =>
         let pattern := "%" +:+ term +:+ "%" in
         like pattern (Row.title r) || like pattern (Row.description r)
     | None => true
     end.

Definition select (db : Db) (status priority search : option string)
  : list Row.t :=
  merge_sort precedes (filter (fun r => where_ status priority search r)
                         (rows db)).

(** Query tasks with optional filters; sorted by priority then deadline. *)
Definition list_tasks (db : Db) (status priority search : option string)
  : res (list Task.t) :=
  mapM _row_to_task (select db status priority search).

(** Update a task's status by id; returns False if not found.  The
    id is one the storage can bind, a signed 64-bit integer ([int64]
    below); beyond that range sqlite3 raises [OverflowError] before the
    statement runs. *)
Definition update_status (now : string) (db : Db) (task_id : Z)
    (new_status : string) : Db * bool :=
  let hit r := Z.eqb (Row.id r) task_id in
  let rowcount := length (filter (fun r => hit r) (rows db)) in
  (mkDb ((fun r => if hit r then Row.set_status new_status now r else r)
           <$> rows db) (seq db),
   bool_decide (0 < rowcount)%nat).

(** Hard-delete a task record; returns False if not found.  The id is
    within the signed 64-bit range, as for [update_status]. *)
Definition delete (db : Db) (task_id : Z) : Db * bool :=
  let hit r := Z.eqb (Row.id r) task_id in
  let rowcount := length (filter (fun r => hit r) (rows db)) in
  (mkDb (filter (fun r => negb (hit r)) (rows db)) (seq db),
   bool_decide (0 < rowcount)%nat).

(** Dump all tasks as JSON; returns count written.  The file system
    maps a path to the JSON value its text denotes; the path is one
    that [open(path, "w")] can open. *)
Definition export_json (db : Db) (fs : gmap string json) (path : string)
  : res (gmap string json * nat) :=
  tasks ← list_tasks db None None None;
  let records :=
    (fun t =>
       let d := asdict t in
       let d := setitem "priority" (JString (Priority_value (Task.priority t))) d in
       let d := setitem "status" (JString (Status_value (Task.status t))) d in
       JObject d) <$> tasks in
  mret (<[path := JArray records]> fs, length records).

Record Stats : Type := mkStats {
  total : nat;
  by_status : gmap string nat;
  by_priority : gmap string nat;
  overdue : nat
}.

(** [d[key] = d.get(key, 0) + 1] *)
Definition count (key : string) (d : gmap string nat) : gmap string nat :=
  <[key := (default 0 (d !! key) + 1)%nat]> d.

Section Clock.
Variable fromisoformat : string -> option date.
Variable today : date.

(** One turn of the loop over the tasks. *)
Definition tally (acc : gmap string nat * gmap string nat * nat)
    (t : Task.t) : gmap string nat * gmap string nat * nat :=
  let '(by_status, by_priority, overdue) := acc in
  (count (Status_value (Task.status t)) by_status,
   count (Priority_value (Task.priority t)) by_priority,
   if Task.is_overdue fromisoformat today t
   then (overdue + 1)%nat else overdue).

(** Return aggregate counters across all tasks. *)
Definition stats (db : Db) : res Stats :=
  tasks ← list_tasks db None None None;
  let '(by_status, by_priority, overdue) :=
    foldl tally (∅, ∅, 0%nat) tasks in
  mret (mkStats (length tasks) by_status by_priority overdue).
End Clock.

End TaskManager.

(** ** Vocabulary of the specification *)

Definition priorities : list string := ["low"; "medium"; "high"; "urgent"].

Definition statuses : list string :=
  ["pending"; "in_progress"; "done"; "cancelled"].

(** Every stored priority and status is a value of its enumeration. *)
Definition enums_hold (db : Db) : Prop :=
  ∀ r, r ∈ rows db → Row.priority r ∈ priorities ∧ Row.status r ∈ statuses.

(** The same, as a check that runs: each row reads back as a task. *)
Definition valid_row (r : Row.t) : bool :=
  is_ok (Priority_of (Row.priority r)) && is_ok (Status_of (Row.status r)).

Definition well_formed (db : Db) : bool := forallb valid_row (rows db).

(** The stored tasks, in storage order. *)
Definition stored_tasks (db : Db) : res (list Task.t) :=
  mapM TaskManager._row_to_task (rows db).

(** Priority rank: urgent before high before medium before low. *)
Definition rank (p : Priority) : Z :=
  match p with
  | URGENT => 1
  | HIGH => 2
  | MEDIUM => 3
  | LOW => 4
  end.

Definition text_lt (a b : string) : Prop := String.compare a b = Lt.

Definition text_le (a b : string) : Prop := a = b ∨ text_lt a b.

(** Deadline strictly earlier, a task without deadline after all others. *)
Definition deadline_lt (a b : option string) : Prop :=
  match a, b with
  | Some x, Some y => text_lt x y
  | Some _, None => True
  | None, _ => False
  end.

(** The documented order of a listing: priority rank, then deadline
    ascending with no deadline last, then creation time ascending. *)
Definition listed_before (a b : Task.t) : Prop :=
  rank (Task.priority a) < rank (Task.priority b)
  ∨ (rank (Task.priority a) = rank (Task.priority b)
     ∧ (deadline_lt (Task.deadline a) (Task.deadline b)
        ∨ (Task.deadline a = Task.deadline b
           ∧ text_le (Task.created_at a) (Task.created_at b)))).

(** [term] occurs in [s] as a run of consecutive characters. *)
Fixpoint starts_with (term s : string) : bool :=
  match term, s with
  | EmptyString, _ => true
  | String _ _, EmptyString => false
  | String a term', String b s' => Ascii.eqb a b && starts_with term' s'
  end.

Fixpoint contains (term s : string) : bool :=
  starts_with term s
  || match s with
     | EmptyString => false
     | String _ s' => contains term s'
     end.

Fixpoint lowercase (s : string) : string :=
  match s with
  | EmptyString => EmptyString
  | String c s' => String (lower c) (lowercase s')
  end.

(** Substring up to the case of the ASCII letters. *)
Definition contains_nocase (term s : string) : bool :=
  contains (lowercase term) (lowercase s).

Fixpoint plain (term : string) : bool :=
  match term with
  | EmptyString => true
  | String c term' =>
      negb (Ascii.eqb c "%") && negb (Ascii.eqb c "_") && plain term'
  end.

Definition mentions (hit : string -> string -> bool) (term : string)
    (t : Task.t) : bool :=
  hit term (Task.title t) || hit term (Task.description t).

Definition with_status (s : Status) (t : Task.t) : Task.t :=
  Task.mk (Task.title t) (Task.description t) (Task.priority t) s
    (Task.deadline t) (Task.tags t) (Task.notes t) (Task.created_at t)
    (Task.updated_at t) (Task.id t).

(** The derived property in the words of the specification: the
    deadline is set, its date is strictly before today, and the status
    is neither done nor cancelled. *)
Definition overdue (fromisoformat : string → option date) (today : date)
    (t : Task.t) : bool :=
  match Task.deadline t with
  | Some text =>
      match fromisoformat text with
      | Some d =>
          date_ltb d today
          && match Task.status t with
             | DONE | CANCELLED => false
             | PENDING | IN_PROGRESS => true
             end
      | None => false
      end
  | None => false
  end.

Definition sum_values (d : gmap string nat) : nat :=
  map_fold (fun _ n acc => (n + acc)%nat) 0%nat d.

(** The flat record the export holds for a task. *)
Definition record_of (t : Task.t) : json :=
  JObject
    [ ("title", JString (Task.title t));
      ("description", JString (Task.description t));
      ("priority", JString (Priority_value (Task.priority t)));
      ("status", JString (Status_value (Task.status t)));
      ("deadline", json_opt JString (Task.deadline t));
      ("tags", JArray (JString <$> Task.tags t));
      ("notes", JString (Task.notes t));
      ("created_at", JString (Task.created_at t));
      ("updated_at", JString (Task.updated_at t));
      ("id", json_opt JInt (Task.id t)) ].

Definition member (key : string) (j : json) : option json :=
  match j with
  | JObject d => getitem key d
  | _ => None
  end.

(** Calls of the engine, and a session of calls on one database.  A
    call that raises leaves the table as it was. *)
Inductive call : Type :=
  | Add (now title description priority : string) (deadline : option string)
        (tags : option (list string)) (notes : string)
  | UpdateStatus (now : string) (task_id : Z) (new_status : string)
  | Delete (task_id : Z).

Definition perform (db : Db) (c : call) : Db :=
  match c with
  | Add now title description priority deadline tags notes =>
      match TaskManager.add now db title description priority deadline
              tags notes with
      | Ok (_, db') => db'
      | Raise _ => db
      end
  | UpdateStatus now task_id new_status =>
      (TaskManager.update_status now db task_id new_status).1
  | Delete task_id => (TaskManager.delete db task_id).1
  end.

Definition session (cs : list call) : Db :=
  foldl perform (TaskManager._init_db None) cs.

(** The status a call hands to the engine is one of the enumeration, as
    the command surface's [choices] see to. *)
Definition status_checked (c : call) : Prop :=
  match c with
  | UpdateStatus _ _ new_status => new_status ∈ statuses
  | _ => True
  end.

(** A sample table: the scenario of the specification plus a closed task. *)
Definition sample : Db :=
  mkDb
    [ Row.mk 1 "A" "" "low" "pending" None [] ""
        "2024-05-01T10:00:00" "2024-05-01T10:00:00";
      Row.mk 2 "B" "call the Bank" "urgent" "pending" (Some "2024-05-09")
        ["x"; "y"] "" "2024-05-01T10:00:01" "2024-05-01T10:00:01";
      Row.mk 3 "Buy MILK" "" "urgent" "in_progress" (Some "2024-05-11") []
        "" "2024-05-01T10:00:02" "2024-05-01T10:00:02";
      Row.mk 5 "D" "" "high" "done" (Some "2024-04-01") [] "n"
        "2024-05-01T10:00:03" "2024-05-02T08:00:00" ]
    5.

Definition sample_today : date := mkdate 2024 5 10.

(** ** Comparators *)

(** A three-way comparison that decides a strict total order. *)
Class Comparator {K : Type} (cmp : K → K → comparison) : Prop := {
  cmp_eq a b : cmp a b = Eq ↔ a = b;
  cmp_opp a b : cmp b a = CompOpp (cmp a b);
  cmp_lt_trans a b c : cmp a b = Lt → cmp b c = Lt → cmp a c = Lt
}.

Definition lex {K1 K2 : Type} (c1 : K1 → K1 → comparison)
    (c2 : K2 → K2 → comparison) (a b : K1 * K2) : comparison :=
  then_by (c1 a.1 b.1) (c2 a.2 b.2).

(** The values of the three ordering terms on a row. *)
Definition sort_key (r : Row.t) : Z * (option string * string) :=
  (priority_case (Row.priority r), (Row.deadline r, Row.created_at r)).

(** The task a valid row reads back as. *)
Definition read (r : Row.t) : Task.t :=
  match TaskManager._row_to_task r with
  | Ok t => t
  | Raise _ => Task.mk "" "" MEDIUM PENDING None [] "" "" "" None
  end.

(** ** Further vocabulary *)

(** A task passes the filters of a listing: every filter that is given
    and not empty holds of it. *)
Definition selected (status priority search : option string)
    (t : Task.t) : bool :=
  match truthy status with
  | Some s => String.eqb (Status_value (Task.status t)) s
  | None => true
  end
  && match truthy priority with
     | Some p => String.eqb (Priority_value (Task.priority t)) p
     | None => true
     end
  && match truthy search with
     | Some term => mentions contains_nocase term t
     | None => true
     end.

(** The identifiers of a table are sound: no two rows share one, and
    none exceeds the AUTOINCREMENT counter. *)
Definition ids_ok (db : Db) : Prop :=
  NoDup (Row.id <$> rows db) ∧ ∀ r, r ∈ rows db → 1 ≤ Row.id r ≤ seq db.

(** The columns of a row that no engine call rewrites. *)
Definition same_content (r r' : Row.t) : Prop :=
  Row.id r' = Row.id r
  ∧ Row.title r' = Row.title r
  ∧ Row.description r' = Row.description r
  ∧ Row.priority r' = Row.priority r
  ∧ Row.deadline r' = Row.deadline r
  ∧ Row.tags r' = Row.tags r
  ∧ Row.notes r' = Row.notes r
  ∧ Row.created_at r' = Row.created_at r.

(** How often [key] occurs in a list of keys. *)
Definition occurrences (key : string) (keys : list string) : nat :=
  length (filter (fun k => k = key) keys).

(** What a histogram holds for [key] when [n] tasks have it: no entry
    for a key that never occurs. *)
Definition entry (n : nat) : option nat :=
  match n with
  | O => None
  | S _ => Some n
  end.

(** * The command surface *)

(** The command functions print; the model returns what they print, one
    text per call of [print].  The characters of the messages that lie
    outside ASCII stand as their UTF-8 bytes. *)

(** ** ANSI colours *)

Definition ESC : string := String "027" "".
Definition GREEN : string := ESC +:+ "[0;32m".
Definition RED : string := ESC +:+ "[0;31m".
Definition YELLOW : string := ESC +:+ "[1;33m".
Definition CYAN : string := ESC +:+ "[0;36m".
Definition BLUE : string := ESC +:+ "[0;34m".
Definition BOLD : string := ESC +:+ "[1m".
Definition NC : string := ESC +:+ "[0m".

(** [Task.priority_color]: the dictionary has an entry for every member,
    so the fallback [NC] of [.get] is never taken. *)
Definition priority_color (self : Task.t) : string :=
  match Task.priority self with
  | URGENT => RED
  | HIGH => YELLOW
  | MEDIUM => CYAN
  | LOW => GREEN
  end.

(** [Task.status_color] *)
Definition status_color (self : Task.t) : string :=
  match Task.status self with
  | DONE => GREEN
  | CANCELLED => RED
  | IN_PROGRESS => YELLOW
  | PENDING => CYAN
  end.

(** ** Text helpers of Python *)

Definition newline : string := String "010" "".

Fixpoint spaces (n : nat) : string :=
  match n with
  | O => ""
  | S n' => String " " (spaces n')
  end.

(** [text * n] *)
Fixpoint times (text : string) (n : nat) : string :=
  match n with
  | O => ""
  | S n' => text +:+ times text n'
  end.

(** The format specifications [:<width] and [:>width]: pad, never cut. *)
Definition ljust (width : nat) (s : string) : string :=
  s +:+ spaces (width - String.length s).

Definition rjust (width : nat) (s : string) : string :=
  spaces (width - String.length s) +:+ s.

(** A byte that continues a character of several bytes in UTF-8. *)
Definition continuation (c : ascii) : bool :=
  let n := N_of_ascii c in ((128 <=? n) && (n <? 192))%N.

(** [text[:n]]: the first [n] characters, each with all its bytes. *)
Fixpoint prefix (n : nat) (s : string) : string :=
  match s with
  | EmptyString => ""
  | String c s' =>
      if continuation c then String c (prefix n s')
      else match n with
           | O => ""
           | S n' => String c (prefix n' s')
           end
  end.

(** [str.isspace] on a character of ASCII.  The white space of Unicode
    beyond ASCII takes several bytes and is not recognised here: [strip]
    below is [str.strip()] on ASCII text. *)
Definition isspace (c : ascii) : bool :=
  let n := N_of_ascii c in
  (((9 <=? n) && (n <=? 13)) || ((28 <=? n) && (n <=? 32)))%N.

Fixpoint lstrip (s : string) : string :=
  match s with
  | EmptyString => ""
  | String c s' => if isspace c then lstrip s' else s
  end.

Fixpoint rstrip (s : string) : string :=
  match s with
  | EmptyString => ""
  | String c s' =>
      match rstrip s' with
      | EmptyString => if isspace c then "" else String c ""
      | String _ _ as kept => String c kept
      end
  end.

(** [str.strip()] *)
Definition strip (s : string) : string := rstrip (lstrip s).

(** [text.split(sep)] for a separator of one character: every
    occurrence splits, so the result is never empty. *)
Fixpoint split_on (sep : ascii) (s : string) : list string :=
  match s with
  | EmptyString => [""]
  | String c s' =>
      if Ascii.eqb c sep then "" :: split_on sep s'
      else match split_on sep s' with
           | piece :: pieces => String c piece :: pieces
           | [] => [String c ""]
           end
  end.

(** ** What can end a command *)

(** Besides the exceptions of the engine, formatting [None] with a width
    raises [TypeError]; binding an integer outside the signed 64-bit
    range to a statement raises [OverflowError]; [open(path, "w")] on a
    path it does not open raises [OpenError], which stands for the
    [OSError] of the case ([FileNotFoundError], [IsADirectoryError],
    [PermissionError], ...). *)
Inductive crash : Set :=
  | Engine (e : exn)
  | TypeError
  | OverflowError
  | OpenError.

(** The integers sqlite3 binds as a parameter.  The ids of stored rows
    are all in the range. *)
Definition int64 (n : Z) : bool := (- 2 ^ 63 <=? n) && (n <? 2 ^ 63).

Inductive run (A : Type) : Type :=
  | Returns (a : A)
  | Crashes (c : crash).
Arguments Returns {A} a.
Arguments Crashes {A} c.

Global Instance run_ret : MRet run := fun A a => Returns a.

Global Instance run_bind : MBind run := fun A B f m =>
  match m with
  | Returns a => f a
  | Crashes c => Crashes c
  end.

Definition engine {A} (r : res A) : run A :=
  match r with
  | Ok a => Returns a
  | Raise e => Crashes (Engine e)
  end.

(** ** Parsed arguments *)

(** The namespace [parse_args] hands over, by subcommand, with the
    attributes the command functions read. *)
Inductive Namespace : Type :=
  | ListArgs (filter_status filter_priority search : option string)
  | AddArgs (title description priority : string)
            (deadline tags : option string) (notes : string)
  | StatusArgs
  | UpdateArgs (id : Z) (new_status : string)
  | ExportArgs (output : string).

(** [choices=[x.value for x in Priority]] and the same for [Status]. *)
Definition priority_choices : list string :=
  Priority_value <$> [LOW; MEDIUM; HIGH; URGENT].



(** ** The commands *)

(** [[x.strip() for x in args.tags.split(",")] if args.tags else []] *)
Definition parse_tags (tags : option string) : list string :=
  match truthy tags with
  | Some text => strip <$> split_on "," text
  | None => []
  end.

(** [sorted(d.items())]: pairs compare by name, then by count. *)
Definition item_le (a b : string * nat) : Prop :=
  then_by (String.compare a.1 b.1) (Nat.compare a.2 b.2) <> Gt.

Global Instance item_le_dec a b : Decision (item_le a b).
Proof.
  unfold item_le.
  destruct (then_by _ _); [left | left | right]; congruence.
Defined.

Definition sorted_items (d : gmap string nat) : list (string * nat) :=
  merge_sort item_le (map_to_list d).

Section Commands.
Variable fromisoformat : string -> option date.
Variable today : date.

(** The paths that [open(path, "w")] opens.  The file system of the
    model holds the files other than the database file. *)
Variable opens : string -> bool.

Definition _print_task (t : Task.t) : run (list string) :=
  let pc := priority_color t in
  let sc := status_color t in
  let ov := if Task.is_overdue fromisoformat today t
            then " " +:+ RED +:+ "[OVERDUE]" +:+ NC else "" in
  let dl := match truthy (Task.deadline t) with
            | Some d => "  due:" +:+ YELLOW +:+ d +:+ NC
            | None => ""
            end in
  let tg := match Task.tags t with
            | [] => ""
            | _ :: _ => "  [" +:+ String.concat ", " (Task.tags t) +:+ "]"
            end in
  match Task.id t with
  | None => Crashes TypeError
  | Some id =>
      let line :=
        "  " +:+ BOLD +:+ "#" +:+ ljust 4 (pretty id) +:+ NC +:+ " "
        +:+ pc +:+ ljust 8 (Priority_value (Task.priority t)) +:+ NC +:+ " "
        +:+ sc +:+ ljust 13 (Status_value (Task.status t)) +:+ NC +:+ " "
        +:+ Task.title t +:+ ov +:+ dl +:+ tg in
      mret (line ::
            if nonempty (Task.description t)
            then ["            " +:+ prefix 100 (Task.description t)]
            else [])
  end.

(** The search is one LIKE carries out: a pattern over the limit of
    its length makes the query raise. *)
Definition cmd_list (filter_status filter_priority search : option string)
    (db : Db) : run (list string) :=
  tasks ← engine (TaskManager.list_tasks db filter_status filter_priority
                    search);
  match tasks with
  | [] => mret [YELLOW +:+ "No tasks found." +:+ NC]
  | _ :: _ =>
      entries ← mapM _print_task tasks;
      mret ([ newline +:+ BOLD +:+ BLUE +:+ "── Tasks ("
                +:+ pretty (length tasks) +:+ ") " +:+ times "─" 40 +:+ NC;
              "  " +:+ ljust 5 "#" +:+ " " +:+ ljust 9 "Priority" +:+ " "
                +:+ ljust 14 "Status" +:+ " Title";
              "  " +:+ times "─" 5 +:+ " " +:+ times "─" 8 +:+ " "
                +:+ times "─" 13 +:+ " " +:+ times "─" 30 ]
            ++ concat entries ++ [""])%list
  end.

Definition cmd_add (now : string)
    (title description priority : string) (deadline tags : option string)
    (notes : string) (db : Db) : run (list string * Db) :=
  let tags := parse_tags tags in
  '(task, db') ← engine (TaskManager.add now db title description priority
                           deadline (Some tags) notes);
  let id := match Task.id task with
            | Some id => pretty id
            | None => "None"
            end in
  let created := GREEN +:+ "✓ Created task #" +:+ id +:+ ": " +:+ BOLD
                 +:+ Task.title task +:+ NC in
  match truthy (Task.deadline task) with
  | Some d =>
      let warn := if Task.is_overdue fromisoformat today task
                  then "  " +:+ RED +:+ "(already overdue!)" +:+ NC else "" in
      mret ([created; "  Deadline: " +:+ d +:+ warn], db')
  | None => mret ([created], db')
  end.

Definition cmd_status (db : Db) : run (list string) :=
  s ← engine (TaskManager.stats fromisoformat today db);
  let status_row '(name, count) :=
    let color := if String.eqb name "done" then GREEN
                 else if String.eqb name "cancelled" then RED else CYAN in
    let bar := times "█" (Nat.min count 40) in
    "    " +:+ color +:+ ljust 14 name +:+ NC +:+ " "
    +:+ rjust 4 (pretty count) +:+ "  " +:+ bar in
  let priority_row '(name, count) :=
    "    " +:+ ljust 14 name +:+ " " +:+ rjust 4 (pretty count) in
  mret ([ newline +:+ BOLD +:+ BLUE +:+ "── Task Manager Status "
            +:+ times "─" 38 +:+ NC;
          "  Total tasks : " +:+ BOLD +:+ pretty (TaskManager.total s) +:+ NC;
          newline +:+ "  " +:+ BOLD +:+ "By Status:" +:+ NC ]
        ++ (status_row <$> sorted_items (TaskManager.by_status s))
        ++ [ newline +:+ "  " +:+ BOLD +:+ "By Priority:" +:+ NC ]
        ++ (priority_row <$> sorted_items (TaskManager.by_priority s))
        ++ match TaskManager.overdue s with
           | O => []
           | S _ => [ newline +:+ "  " +:+ RED +:+ "⚠  Overdue tasks: "
                        +:+ pretty (TaskManager.overdue s) +:+ NC ]
           end
        ++ [""])%list.

(** [args.id] is any integer ([type=int]); the statement of
    [update_status] takes it only within the signed 64-bit range. *)
Definition cmd_update (now : string) (id : Z) (new_status : string)
    (db : Db) : run (list string * Db) :=
  if int64 id
  then
    let '(db', found) := TaskManager.update_status now db id new_status in
    if found
    then mret ([GREEN +:+ "✓ Task #" +:+ pretty id +:+ " status → "
                  +:+ new_status +:+ NC], db')
    else mret ([RED +:+ "✗ Task #" +:+ pretty id +:+ " not found" +:+ NC], db')
  else Crashes OverflowError.

(** [export_json] reads the tasks, then opens the file: a table that
    does not read back fails first, a path that does not open next. *)
Definition cmd_export (output : string) (db : Db) (fs : gmap string json)
  : run (list string * gmap string json) :=
  '(fs', count) ← engine (TaskManager.export_json db fs output);
  if opens output
  then mret ([GREEN +:+ "✓ Exported " +:+ pretty count +:+ " tasks → "
                +:+ output +:+ NC], fs')
  else Crashes OpenError.


End Commands.

(** ** Vocabulary for the command surface *)

(** How often the character [c] occurs in [s]. *)
Fixpoint occurs (c : ascii) (s : string) : nat :=
  match s with
  | EmptyString => O
  | String a s' => ((if Ascii.eqb a c then 1 else 0) + occurs c s')%nat
  end.

(** A tag as [--tags] yields it: no comma inside, no white space at its
    ends. *)
Definition clean_tag (x : string) : Prop :=
  occurs "," x = O ∧ strip x = x.

(** The text starts with a character that is no white space, or is
    empty. *)
Definition starts_black (s : string) : bool :=
  match s with
  | EmptyString => true
  | String c _ => negb (isspace c)
  end.

(** The engine call that writes, if any, behind a command line: there
    is no command that deletes. *)
Definition effect (now : string) (args : Namespace) : option call :=
  match args with
  | AddArgs title description priority deadline tags notes =>
      Some (Add now title description priority deadline
              (Some (parse_tags tags)) notes)
  | UpdateArgs id new_status => Some (UpdateStatus now id new_status)
  | ListArgs _ _ _ | StatusArgs | ExportArgs _ => None
  end.

Definition after (db : Db) (now : string) (args : Namespace) : Db :=
  match effect now args with
  | Some c => perform db c
  | None => db
  end.


(** What [_print_task] prints for a task that has an id. *)
Definition printed (fromisoformat : string → option date) (today : date)
    (t : Task.t) : list string :=
  match _print_task fromisoformat today t with
  | Returns lines => lines
  | Crashes _ => []
  end.

(** ** Limits of the storage and of the texts *)

(** A text without the character NUL. *)
Fixpoint no_nul (s : string) : bool :=
  match s with
  | EmptyString => true
  | String c s' => negb (Ascii.eqb c "000") && no_nul s'
  end.

(** [SQLITE_MAX_LIKE_PATTERN_LENGTH], in bytes; the pattern of a search
    is the term between two [%]. *)
Definition like_pattern_limit : Z := 50000.

Definition short_enough (term : string) : bool :=
  Z.of_nat (String.length term) + 2 <=? like_pattern_limit.

Definition texts_no_nul (db : Db) : bool :=
  forallb (fun r => no_nul (Row.title r) && no_nul (Row.description r))
    (rows db).

(** A text of ASCII characters only. *)
Fixpoint ascii_only (s : string) : bool :=
  match s with
  | EmptyString => true
  | String c s' => (N_of_ascii c <? 128)%N && ascii_only s'
  end.

Definition texts_ascii (db : Db) : bool :=
  forallb (fun r => ascii_only (Row.title r) && ascii_only (Row.description r))
    (rows db).

(** The searches that LIKE carries out as modelled: none, or a term
    without NUL and short enough for the pattern, on a table whose
    titles and descriptions have no NUL and, when the term has the
    wildcard [_], are of ASCII characters (where one character is one
    byte). *)
Definition searchable (db : Db) (search : option string) : bool :=
  match truthy search with
  | Some term =>
      no_nul term && short_enough term && texts_no_nul db
      && ((occurs "_" term =? 0)%nat || texts_ascii db)
  | None => true
  end.


(** A file system in which every path opens but the empty one. *)
Definition sample_opens (path : string) : bool := nonempty path.

(** * Properties *)

(** ** Enumerations and rows *)

Ltac case_eqb :=
  match goal with
  | |- context [String.eqb ?a ?b] => destruct (String.eqb_spec a b)
  end.

Lemma Priority_of_value p : Priority_of (Priority_value p) = Ok p.
Proof. by destruct p. Qed.

Lemma Status_of_value s : Status_of (Status_value s) = Ok s.
Proof. by destruct s. Qed.

Lemma Priority_of_Ok v p : Priority_of v = Ok p → v = Priority_value p.
Proof.
  unfold Priority_of.
  repeat (case_eqb; [by intros [= <-] |]). done.
Qed.

Lemma Status_of_Ok v s : Status_of v = Ok s → v = Status_value s.
Proof.
  unfold Status_of.
  repeat (case_eqb; [by intros [= <-] |]). done.
Qed.

Lemma Priority_value_enum p : Priority_value p ∈ priorities.
Proof. destruct p; unfold priorities; set_solver. Qed.

Lemma Status_value_enum s : Status_value s ∈ statuses.
Proof. destruct s; unfold statuses; set_solver. Qed.

Lemma priorities_Ok v : v ∈ priorities ↔ ∃ p, Priority_of v = Ok p.
Proof.
  split.
  - unfold priorities. rewrite !elem_of_cons, elem_of_nil.
    intros [-> | [-> | [-> | [-> | []]]]]; eauto.
  - intros [p ->%Priority_of_Ok]. apply Priority_value_enum.
Qed.

Lemma statuses_Ok v : v ∈ statuses ↔ ∃ s, Status_of v = Ok s.
Proof.
  split.
  - unfold statuses. rewrite !elem_of_cons, elem_of_nil.
    intros [-> | [-> | [-> | [-> | []]]]]; eauto.
  - intros [s ->%Status_of_Ok]. apply Status_value_enum.
Qed.

Lemma is_ok_Ok {A} (r : res A) : is_ok r = true ↔ ∃ a, r = Ok a.
Proof. destruct r; simpl; split; [eauto | done | done | by intros [? ?]]. Qed.

Lemma valid_row_enums r :
  valid_row r = true ↔
  Row.priority r ∈ priorities ∧ Row.status r ∈ statuses.
Proof.
  unfold valid_row.
  by rewrite andb_true_iff, !is_ok_Ok, priorities_Ok, statuses_Ok.
Qed.

Lemma well_formed_enums db : well_formed db = true ↔ enums_hold db.
Proof.
  unfold well_formed, enums_hold. rewrite forallb_forall.
  setoid_rewrite valid_row_enums. by setoid_rewrite list_elem_of_In.
Qed.

Lemma valid_row_task r :
  valid_row r = true ↔ ∃ t, TaskManager._row_to_task r = Ok t.
Proof.
  unfold valid_row, TaskManager._row_to_task.
  rewrite andb_true_iff, !is_ok_Ok. split.
  - intros [[p ->] [s ->]]. simpl. eauto.
  - destruct (Priority_of _); [| by intros [? ?]].
    destruct (Status_of _); [| by intros [? ?]]. eauto.
Qed.

(** ** Comprehensions that may raise *)

Lemma mapM_Ok {A B} (f : A → res B) l k :
  mapM f l = Ok k ↔ Forall2 (fun x y => f x = Ok y) l k.
Proof.
  revert k. induction l as [| x l IH]; intros k; simpl.
  - split; [intros [= <-]; constructor | by inversion 1].
  - split.
    + destruct (f x) as [y |] eqn:Hx; [simpl | done].
      destruct (mapM f l) as [ys |] eqn:Hl; [simpl | done].
      intros [= <-]. constructor; [done |]. by apply IH.
    + intros (y & ys & Hx & Hl & ->)%Forall2_cons_inv_l.
      apply IH in Hl. by rewrite Hx, Hl.
Qed.

(** ** Overdue *)

Lemma is_overdue_overdue fromisoformat today t :
  fromisoformat "" = None →
  Task.is_overdue fromisoformat today t = overdue fromisoformat today t.
Proof.
  intros Hempty. unfold Task.is_overdue, overdue, truthy.
  destruct (Task.deadline t) as [[| c text] |]; simpl; [by rewrite Hempty | | done].
  destruct (fromisoformat (String c text)) as [d |];
    destruct (Task.status t); simpl; by rewrite ?andb_true_r, ?andb_false_r.
Qed.

(** C6.  A task is overdue exactly when its deadline is set, the date of
    the deadline is strictly before today and the status is neither done
    nor cancelled.  So a task without deadline is never overdue, and a
    task stops being overdue once it is marked done or cancelled.  The
    parser is any [date.fromisoformat] that rejects the empty text. *)
Theorem is_overdue_exactly (fromisoformat : string → option date)
    (today : date) (t : Task.t) :
  fromisoformat "" = None →
  (Task.is_overdue fromisoformat today t = true ↔
   ∃ text d, Task.deadline t = Some text ∧ fromisoformat text = Some d
             ∧ date_ltb d today = true
             ∧ Task.status t ≠ DONE ∧ Task.status t ≠ CANCELLED)
  ∧ (Task.deadline t = None → Task.is_overdue fromisoformat today t = false)
  ∧ (∀ s, s = DONE ∨ s = CANCELLED →
          Task.is_overdue fromisoformat today (with_status s t) = false).
Proof.
  intros Hempty. split; [| split].
  - unfold Task.is_overdue, truthy. split.
    + destruct (Task.deadline t) as [text |]; [| done].
      destruct (nonempty text); [| done].
      destruct (Task.status t) eqn:Hs; simpl; try done;
        destruct (fromisoformat text) as [d |] eqn:Hd; try done;
        intros Hlt; exists text, d; by rewrite Hd.
    + intros (text & d & -> & Hd & Hlt & Hdone & Hcanc).
      destruct text as [| c text]; [congruence |]. simpl.
      destruct (Task.status t); simpl; try done; by rewrite Hd.
  - intros Hnone. unfold Task.is_overdue. by rewrite Hnone.
  - intros s Hs. unfold Task.is_overdue, with_status. simpl.
    destruct (truthy (Task.deadline t)); [| done].
    by destruct Hs as [-> | ->].
Qed.

Lemma is_overdue_exactly_witness :
  date_fromisoformat "" = None ∧
  Task.is_overdue date_fromisoformat sample_today
    (with_status DONE
       (Task.mk "B" "" URGENT PENDING (Some "2024-05-09") [] "" "" "" None))
  = false.
Proof.
  split; [reflexivity |].
  apply (is_overdue_exactly date_fromisoformat sample_today
           (Task.mk "B" "" URGENT PENDING (Some "2024-05-09") [] "" "" "" None)).
  - reflexivity.
  - by left.
Defined.

(** ** Filters *)

(** C10.  An empty text given as status, priority or search filter is
    the same as no filter: the call returns what the call without that
    filter returns, and with all three empty what the unfiltered call
    returns. *)
Theorem list_tasks_empty_filter (db : Db) (status priority search : option string) :
  TaskManager.list_tasks db (Some "") priority search
  = TaskManager.list_tasks db None priority search
  ∧ TaskManager.list_tasks db status (Some "") search
    = TaskManager.list_tasks db status None search
  ∧ TaskManager.list_tasks db status priority (Some "")
    = TaskManager.list_tasks db status priority None
  ∧ TaskManager.list_tasks db (Some "") (Some "") (Some "")
    = TaskManager.list_tasks db None None None.
Proof. repeat split. Qed.

(** ** Updates and deletions *)

Lemma filter_none {A} (f : A → bool) (l : list A) :
  (∀ x, x ∈ l → f x = false) → filter (fun x => f x) l = [].
Proof.
  induction l as [| x l IH]; intros H; [done |].
  rewrite filter_cons, (H x) by set_solver. simpl. apply IH. set_solver.
Qed.

Lemma filter_all {A} (f : A → bool) (l : list A) :
  (∀ x, x ∈ l → f x = true) → filter (fun x => f x) l = l.
Proof.
  induction l as [| x l IH]; intros H; [done |].
  rewrite filter_cons, (H x) by set_solver. simpl. f_equal. apply IH. set_solver.
Qed.

Lemma fmap_unchanged {A} (f : A → A) (l : list A) :
  (∀ x, x ∈ l → f x = x) → f <$> l = l.
Proof.
  induction l as [| x l IH]; intros H; [done |].
  rewrite fmap_cons, (H x) by set_solver. f_equal. apply IH. set_solver.
Qed.



(** C4.  For an id that a stored task has, [update_status] returns true;
    the table keeps its rows in place, the rows with that id get the new
    status and the new [updated_at] and keep every other column, and all
    other rows are as they were. *)
Theorem update_status_frame (now : string) (db : Db) (task_id : Z)
    (new_status : string) :
  (∃ r, r ∈ rows db ∧ Row.id r = task_id) →
  ∃ db', TaskManager.update_status now db task_id new_status = (db', true)
    ∧ seq db' = seq db
    ∧ length (rows db') = length (rows db)
    ∧ ∀ (i : nat) r, rows db !! i = Some r →
        ∃ r', rows db' !! i = Some r'
          ∧ Row.id r' = Row.id r
          ∧ Row.title r' = Row.title r
          ∧ Row.description r' = Row.description r
          ∧ Row.priority r' = Row.priority r
          ∧ Row.deadline r' = Row.deadline r
          ∧ Row.tags r' = Row.tags r
          ∧ Row.notes r' = Row.notes r
          ∧ Row.created_at r' = Row.created_at r
          ∧ (Row.id r = task_id →
             Row.status r' = new_status ∧ Row.updated_at r' = now)
          ∧ (Row.id r ≠ task_id → r' = r).
Proof.
  intros (r0 & Hr0 & Hid0).
  eexists. split; [| split; [| split]].
  - unfold TaskManager.update_status. f_equal.
    apply bool_decide_eq_true.
    assert (Hin : r0 ∈ filter (fun r => Row.id r =? task_id) (rows db)).
    { apply list_elem_of_filter. split; [| done].
      apply Is_true_true, Z.eqb_eq, Hid0. }
    destruct (filter _ (rows db)); [by apply elem_of_nil in Hin | simpl; lia].
  - done.
  - simpl. by rewrite length_fmap.
  - intros i r Hi. simpl. rewrite list_lookup_fmap, Hi. simpl.
    eexists. split; [done |].
    destruct (Z.eqb_spec (Row.id r) task_id) as [Heq | Hne]; simpl.
    + repeat split; try done.
    + repeat split; try done.
Qed.

Lemma update_status_frame_witness :
  (∃ r, r ∈ rows sample ∧ Row.id r = 2)
  ∧ ∃ db', TaskManager.update_status "2024-05-03T09:00:00" sample 2 "done"
           = (db', true)
      ∧ seq db' = seq sample
      ∧ length (rows db') = length (rows sample).
Proof.
  assert (H : ∃ r, r ∈ rows sample ∧ Row.id r = 2).
  { exists (Row.mk 2 "B" "call the Bank" "urgent" "pending" (Some "2024-05-09")
              ["x"; "y"] "" "2024-05-01T10:00:01" "2024-05-01T10:00:01").
    split; [| reflexivity].
    unfold sample; simpl. apply list_elem_of_further, list_elem_of_here. }
  split; [exact H |].
  destruct (update_status_frame "2024-05-03T09:00:00" sample 2 "done" H)
    as (db' & H1 & H2 & H3 & _).
  by exists db'.
Defined.

(** ** Insertion *)

Lemma max_rowid_bound (l : list Row.t) r : r ∈ l → Row.id r ≤ max_rowid l.
Proof.
  induction l as [| x l IH]; [by intros ?%elem_of_nil |].
  intros [-> | Hr%IH]%elem_of_cons; simpl; lia.
Qed.

Lemma next_rowid_fresh db r : r ∈ rows db → Row.id r < next_rowid db.
Proof. intros ?%max_rowid_bound. unfold next_rowid. lia. Qed.

Lemma add_unknown_priority now db title description priority deadline tags notes :
  priority ∉ priorities →
  TaskManager.add now db title description priority deadline tags notes
  = Raise ValueError.
Proof.
  intros Hp. unfold TaskManager.add.
  destruct (Priority_of priority) as [p | []] eqn:E; [| done].
  destruct Hp. apply priorities_Ok. eauto.
Qed.

(** C3, as the specification words it, fails: a priority text outside
    the enumeration makes [add] raise [ValueError], with the storage in
    perfect order. *)
Lemma add_raises_on_unknown_priority :
  TaskManager.add "2024-05-01T10:00:00" (TaskManager._init_db None)
    "A" "" "bogus" None None ""
  = Raise ValueError.
Proof. reflexivity. Qed.

(** C3, amended.  For every input whose priority text is one of the
    enumeration, [add] returns: the task carries the one timestamp as
    [created_at] and [updated_at], status pending, the inputs as given,
    and an identifier larger than every identifier in the table; the
    table gains, at its end, exactly the row that reads back as the
    returned task. *)
Theorem add_returns_task (now : string) (db : Db)
    (title description priority : string) (deadline : option string)
    (tags : option (list string)) (notes : string) :
  priority ∈ priorities →
  ∃ t row,
    TaskManager.add now db title description priority deadline tags notes
    = Ok (t, mkDb (rows db ++ [row]) (Row.id row))
    ∧ Task.created_at t = now ∧ Task.updated_at t = now
    ∧ Task.status t = PENDING ∧ Row.status row = "pending"
    ∧ Task.id t = Some (Row.id row)
    ∧ (∀ r, r ∈ rows db → Row.id r < Row.id row)
    ∧ seq db < Row.id row
    ∧ TaskManager._row_to_task row = Ok t
    ∧ Task.title t = title ∧ Task.description t = description
    ∧ Priority_value (Task.priority t) = priority
    ∧ Task.deadline t = deadline ∧ Task.tags t = default [] tags
    ∧ Task.notes t = notes.
Proof.
  intros [p Hp]%priorities_Ok. unfold TaskManager.add. rewrite Hp. simpl.
  eexists _, (Row.mk (next_rowid db) title description (Priority_value p)
                "pending" deadline (default [] tags) notes now now).
  split; [reflexivity |]. simpl.
  repeat split.
  - intros r Hr. by apply next_rowid_fresh.
  - unfold next_rowid. lia.
  - unfold TaskManager._row_to_task. simpl. by rewrite Priority_of_value.
  - symmetry. by apply Priority_of_Ok.
Qed.

Lemma add_returns_task_witness :
  "urgent" ∈ priorities
  ∧ ∃ t row,
      TaskManager.add "2024-05-03T09:00:00" sample "E" "" "urgent"
        (Some "2024-06-01") None ""
      = Ok (t, mkDb (rows sample ++ [row]) (Row.id row))
      ∧ Task.created_at t = "2024-05-03T09:00:00"
      ∧ Task.updated_at t = "2024-05-03T09:00:00".
Proof.
  assert (H : "urgent" ∈ priorities) by apply (Priority_value_enum URGENT).
  split; [exact H |].
  destruct (add_returns_task "2024-05-03T09:00:00" sample "E" "" "urgent"
              (Some "2024-06-01") None "" H) as (t & row & H1 & H2 & H3 & _).
  by exists t, row.
Defined.

(** ** Sessions *)

Lemma add_enums now db title description priority deadline tags notes t db' :
  TaskManager.add now db title description priority deadline tags notes
  = Ok (t, db') →
  enums_hold db → enums_hold db'.
Proof.
  unfold TaskManager.add.
  destruct (Priority_of priority) as [p |]; [simpl | done].
  intros [= <- <-] Hdb r. simpl.
  intros [Hr | ->%list_elem_of_singleton]%elem_of_app; [by apply Hdb |].
  simpl. split; [apply Priority_value_enum | apply (Status_value_enum PENDING)].
Qed.

Lemma update_status_enums now db task_id new_status :
  new_status ∈ statuses →
  enums_hold db →
  enums_hold (TaskManager.update_status now db task_id new_status).1.
Proof.
  intros Hs Hdb r'. simpl.
  intros (r & -> & Hr)%list_elem_of_fmap. apply Hdb in Hr as [Hp Hst].
  by destruct (Row.id r =? task_id).
Qed.

Lemma delete_enums db task_id :
  enums_hold db → enums_hold (TaskManager.delete db task_id).1.
Proof.
  intros Hdb r. simpl. intros [_ Hr]%list_elem_of_filter. by apply Hdb.
Qed.

Lemma perform_enums db c :
  status_checked c → enums_hold db → enums_hold (perform db c).
Proof.
  destruct c as [now title description priority deadline tags notes
                | now task_id new_status | task_id]; simpl; intros Hc Hdb.
  - destruct (TaskManager.add _ _ _ _ _ _ _ _) as [[t db'] |] eqn:E; [| done].
    by eapply add_enums.
  - by apply update_status_enums.
  - by apply delete_enums.
Qed.

Lemma foldl_perform_enums cs db :
  Forall status_checked cs → enums_hold db → enums_hold (foldl perform db cs).
Proof.
  intros Hcs. revert db.
  induction Hcs as [| c cs Hc _ IH]; intros db Hdb; simpl; [done |].
  by apply IH, perform_enums.
Qed.

(** C9, as the specification words it, fails: [update_status] writes the
    text it is given, and the schema has no check on the column. *)
Lemma session_stores_unknown_status :
  ¬ enums_hold
      (session [ Add "2024-05-01T10:00:00" "A" "" "low" None None "";
                 UpdateStatus "2024-05-01T11:00:00" 1 "bogus" ]).
Proof.
  intros H.
  destruct (H (Row.mk 1 "A" "" "low" "bogus" None [] ""
                 "2024-05-01T10:00:00" "2024-05-01T11:00:00")) as [_ Hs].
  - apply list_elem_of_here.
  - unfold statuses in Hs. simpl in Hs.
    rewrite !elem_of_cons, elem_of_nil in Hs.
    destruct Hs as [Hs | [Hs | [Hs | [Hs | []]]]]; discriminate Hs.
Qed.

(** C9, amended.  After every session of engine calls on a new database
    in which each [update_status] is handed a status of the enumeration,
    every stored priority and status is a value of its enumeration.
    ([add] checks the priority itself; nothing in the engine or the
    schema checks a status.) *)
Theorem session_enums (cs : list call) :
  Forall status_checked cs → enums_hold (session cs).
Proof.
  intros Hcs. apply foldl_perform_enums; [done |].
  intros r Hr. simpl in Hr. by apply elem_of_nil in Hr.
Qed.

(** So the listings, statistics and exports above apply to every table
    that such a session leaves behind. *)
Lemma session_well_formed (cs : list call) :
  Forall status_checked cs → well_formed (session cs) = true.
Proof.
  intros Hcs. apply well_formed_enums, foldl_perform_enums; [done |].
  intros r Hr. simpl in Hr. by apply elem_of_nil in Hr.
Qed.

Lemma session_enums_witness :
  Forall status_checked
    [ Add "2024-05-01T10:00:00" "A" "" "low" None None "";
      UpdateStatus "2024-05-01T11:00:00" 1 "done";
      Add "2024-05-01T12:00:00" "B" "" "bogus" None None "";
      Delete 1 ]
  ∧ enums_hold
      (session [ Add "2024-05-01T10:00:00" "A" "" "low" None None "";
                 UpdateStatus "2024-05-01T11:00:00" 1 "done";
                 Add "2024-05-01T12:00:00" "B" "" "bogus" None None "";
                 Delete 1 ]).
Proof.
  assert (H : Forall status_checked
    [ Add "2024-05-01T10:00:00" "A" "" "low" None None "";
      UpdateStatus "2024-05-01T11:00:00" 1 "done";
      Add "2024-05-01T12:00:00" "B" "" "bogus" None None "";
      Delete 1 ]).
  { repeat constructor. }
  split; [exact H |]. exact (session_enums _ H).
Defined.

(** ** The order of a listing *)

Lemma ascii_compare_refl a : Ascii.compare a a = Eq.
Proof. apply N.compare_refl. Qed.

Lemma ascii_compare_lt_trans a b c :
  Ascii.compare a b = Lt → Ascii.compare b c = Lt → Ascii.compare a c = Lt.
Proof. unfold Ascii.compare. rewrite !N.compare_lt_iff. lia. Qed.

Lemma string_compare_refl s : String.compare s s = Eq.
Proof. induction s as [| a s IH]; simpl; [done |]. by rewrite ascii_compare_refl. Qed.

Lemma string_compare_lt_trans a b c :
  String.compare a b = Lt → String.compare b c = Lt → String.compare a c = Lt.
Proof.
  revert b c. induction a as [| x a IH]; intros [| y b] [| z c]; simpl; try done.
  destruct (Ascii.compare x y) eqn:Hxy; try done;
    destruct (Ascii.compare y z) eqn:Hyz; try done.
  - apply Ascii.compare_eq_iff in Hxy as ->. rewrite Hyz. apply IH.
  - apply Ascii.compare_eq_iff in Hxy as ->. by rewrite Hyz.
  - apply Ascii.compare_eq_iff in Hyz as <-. by rewrite Hxy.
  - by rewrite (ascii_compare_lt_trans x y z).
Qed.

Global Instance Z_comparator : Comparator Z.compare.
Proof.
  split.
  - apply Z.compare_eq_iff.
  - intros a b. apply Z.compare_antisym.
  - intros a b c. rewrite !Z.compare_lt_iff. lia.
Qed.

Global Instance string_comparator : Comparator String.compare.
Proof.
  split.
  - intros a b. split; [apply String.compare_eq_iff |].
    intros ->. apply string_compare_refl.
  - intros a b. apply String.compare_antisym.
  - apply string_compare_lt_trans.
Qed.

Global Instance nulls_last_comparator : Comparator nulls_last.
Proof.
  split.
  - intros [x |] [y |]; simpl; try (split; congruence).
    rewrite (cmp_eq (cmp := String.compare)). split; congruence.
  - intros [x |] [y |]; simpl; try done. apply cmp_opp.
  - intros [x |] [y |] [z |]; simpl; try done. apply cmp_lt_trans.
Qed.

Lemma then_by_Eq c c' : then_by c c' = Eq ↔ c = Eq ∧ c' = Eq.
Proof. destruct c; simpl; intuition congruence. Qed.

Global Instance lex_comparator {K1 K2} (c1 : K1 → K1 → comparison)
    (c2 : K2 → K2 → comparison) `{!Comparator c1, !Comparator c2} :
  Comparator (lex c1 c2).
Proof.
  split.
  - intros [a1 a2] [b1 b2]. unfold lex. simpl.
    rewrite then_by_Eq, !cmp_eq. split; [intros [-> ->] | intros [= -> ->]]; done.
  - intros [a1 a2] [b1 b2]. unfold lex. simpl.
    rewrite (cmp_opp (cmp := c1) a1 b1), (cmp_opp (cmp := c2) a2 b2).
    by destruct (c1 a1 b1).
  - intros [a1 a2] [b1 b2] [d1 d2]. unfold lex. simpl.
    destruct (c1 a1 b1) eqn:Hab; simpl; try done;
      destruct (c1 b1 d1) eqn:Hbd; simpl; try done.
    + apply (cmp_eq (cmp := c1)) in Hab as ->. rewrite Hbd. simpl.
      apply cmp_lt_trans.
    + apply (cmp_eq (cmp := c1)) in Hab as ->. by rewrite Hbd.
    + apply (cmp_eq (cmp := c1)) in Hbd as <-. by rewrite Hab.
    + by rewrite (cmp_lt_trans (cmp := c1) a1 b1 d1 Hab Hbd).
Qed.

Section Comparator.
Context {K : Type} (cmp : K → K → comparison) `{!Comparator cmp}.

Lemma cmp_not_Gt_total a b : cmp a b ≠ Gt ∨ cmp b a ≠ Gt.
Proof.
  rewrite (cmp_opp (cmp := cmp) a b). destruct (cmp a b); simpl; auto.
Qed.

Lemma cmp_not_Gt_trans a b c : cmp a b ≠ Gt → cmp b c ≠ Gt → cmp a c ≠ Gt.
Proof.
  destruct (cmp a b) eqn:Hab; [| | done];
    destruct (cmp b c) eqn:Hbc; try done; intros _ _.
  - apply (cmp_eq (cmp := cmp)) in Hab as ->. by rewrite Hbc.
  - apply (cmp_eq (cmp := cmp)) in Hab as ->. by rewrite Hbc.
  - apply (cmp_eq (cmp := cmp)) in Hbc as <-. by rewrite Hab.
  - by rewrite (cmp_lt_trans (cmp := cmp) a b c Hab Hbc).
Qed.
End Comparator.

Lemma order_by_key r1 r2 :
  order_by r1 r2
  = lex Z.compare (lex nulls_last String.compare) (sort_key r1) (sort_key r2).
Proof. reflexivity. Qed.

Global Instance precedes_total : Total precedes.
Proof. intros r1 r2. unfold precedes. rewrite !order_by_key. apply cmp_not_Gt_total, _. Qed.

Global Instance precedes_trans : Transitive precedes.
Proof.
  intros r1 r2 r3. unfold precedes. rewrite !order_by_key.
  apply cmp_not_Gt_trans, _.
Qed.

Lemma priority_case_rank p : priority_case (Priority_value p) = rank p.
Proof. by destruct p. Qed.

Lemma read_Ok r : valid_row r = true → TaskManager._row_to_task r = Ok (read r).
Proof. intros [t Ht]%valid_row_task. unfold read. by rewrite Ht. Qed.

Lemma read_priority r :
  valid_row r = true → Row.priority r = Priority_value (Task.priority (read r)).
Proof.
  intros Hr. pose proof (read_Ok r Hr) as H. revert H.
  unfold TaskManager._row_to_task.
  destruct (Priority_of (Row.priority r)) as [p |] eqn:Hp; [simpl | done].
  destruct (Status_of (Row.status r)) as [s |]; [simpl | done].
  intros [= <-]. simpl. by apply Priority_of_Ok.
Qed.

Lemma read_fields r :
  valid_row r = true →
  Task.title (read r) = Row.title r
  ∧ Task.description (read r) = Row.description r
  ∧ Task.deadline (read r) = Row.deadline r
  ∧ Task.created_at (read r) = Row.created_at r.
Proof.
  intros Hr. pose proof (read_Ok r Hr) as H. revert H.
  unfold TaskManager._row_to_task.
  destruct (Priority_of (Row.priority r)) as [p |]; [simpl | done].
  destruct (Status_of (Row.status r)) as [s |]; [simpl | done].
  by intros [= <-].
Qed.

(** On valid rows the query's ordering terms say what the documented
    order says. *)
Lemma precedes_listed_before r1 r2 :
  valid_row r1 = true → valid_row r2 = true →
  precedes r1 r2 → listed_before (read r1) (read r2).
Proof.
  intros H1 H2. unfold precedes, order_by, listed_before.
  destruct (read_fields r1 H1) as (_ & _ & -> & ->).
  destruct (read_fields r2 H2) as (_ & _ & -> & ->).
  rewrite (read_priority r1 H1), (read_priority r2 H2), !priority_case_rank.
  destruct (Z.compare_spec (rank (Task.priority (read r1)))
              (rank (Task.priority (read r2)))) as [Heq | Hlt | Hgt]; simpl.
  - intros Hrest. right. split; [done |].
    destruct (nulls_last (Row.deadline r1) (Row.deadline r2)) eqn:Hd; simpl in Hrest.
    + right. apply (cmp_eq (cmp := nulls_last)) in Hd. split; [done |].
      destruct (String.compare (Row.created_at r1) (Row.created_at r2)) eqn:Hc.
      * left. by apply (cmp_eq (cmp := String.compare)).
      * by right.
      * done.
    + left. destruct (Row.deadline r1), (Row.deadline r2); done.
    + done.
  - by left.
  - done.
Qed.

Lemma mapM_read l :
  forallb valid_row l = true → mapM TaskManager._row_to_task l = Ok (read <$> l).
Proof.
  rewrite forallb_forall. intros H. apply mapM_Ok.
  induction l as [| r l IH]; simpl; constructor.
  - apply read_Ok, H. by left.
  - apply IH. intros x Hx. apply H. by right.
Qed.

Lemma forallb_Permutation {A} (f : A → bool) l k :
  l ≡ₚ k → forallb f l = forallb f k.
Proof.
  induction 1 as [| x l k _ IH | x y l | l k m _ IH1 _ IH2]; simpl.
  - done.
  - by rewrite IH.
  - by rewrite !andb_assoc, (andb_comm (f y)).
  - by rewrite IH1.
Qed.

Lemma forallb_filter {A} (f : A → bool) (P : A → Prop) `{∀ x, Decision (P x)} l :
  forallb f l = true → forallb f (filter P l) = true.
Proof.
  rewrite !forallb_forall. intros Hall x Hx%list_elem_of_In.
  apply list_elem_of_filter in Hx as [_ Hx]. by apply Hall, list_elem_of_In.
Qed.

Lemma select_valid db status priority search :
  well_formed db = true →
  forallb valid_row (TaskManager.select db status priority search) = true.
Proof.
  intros Hdb. unfold TaskManager.select.
  rewrite (forallb_Permutation _ _ _ (merge_sort_Permutation _ _)).
  by apply forallb_filter.
Qed.

Lemma read_sorted l :
  forallb valid_row l = true →
  StronglySorted precedes l → StronglySorted listed_before (read <$> l).
Proof.
  intros Hv Hs. induction Hs as [| r l _ IH Hr]; [constructor |].
  simpl in Hv. apply andb_true_iff in Hv as [Hvr Hvl].
  rewrite fmap_cons. constructor; [by apply IH |].
  rewrite forallb_forall in Hvl. rewrite Forall_fmap, Forall_forall in *.
  intros x Hx. apply precedes_listed_before; [done | | by apply Hr].
  by apply Hvl, list_elem_of_In.
Qed.

Lemma select_sorted db status priority search :
  well_formed db = true →
  StronglySorted listed_before
    (read <$> TaskManager.select db status priority search).
Proof.
  intros Hdb. apply read_sorted; [by apply select_valid |].
  apply StronglySorted_merge_sort; apply _.
Qed.

Lemma list_tasks_read db status priority search :
  well_formed db = true →
  TaskManager.list_tasks db status priority search
  = Ok (read <$> TaskManager.select db status priority search).
Proof. intros Hdb. by apply mapM_read, select_valid. Qed.

Lemma select_all db :
  TaskManager.select db None None None ≡ₚ rows db.
Proof.
  unfold TaskManager.select. rewrite merge_sort_Permutation.
  by rewrite (filter_all (fun r => TaskManager.where_ None None None r)).
Qed.

(** *** Deadlines that are dates *)

Lemma digits_step n s acc v rest :
  digits (S n) s acc = Some (v, rest) →
  ∃ c k s', s = String c s' ∧ digit c = Some k
            ∧ digits n s' (10 * acc + k) = Some (v, rest).
Proof.
  simpl. destruct s as [| c s']; [done |].
  destruct (digit c) as [k |] eqn:Hk; [| done]. intros H. by exists c, k, s'.
Qed.

Lemma digit_value c k :
  digit c = Some k → 0 ≤ k ≤ 9 ∧ Z.of_N (N_of_ascii c) = k + 48.
Proof.
  unfold digit. destruct (_ && _) eqn:H; [| done]. intros [= <-].
  apply andb_true_iff in H as [?%Z.leb_le ?%Z.leb_le]. lia.
Qed.

Lemma digit_compare c c' k k' :
  digit c = Some k → digit c' = Some k' → Ascii.compare c c' = (k ?= k').
Proof.
  intros [_ H]%digit_value [_ H']%digit_value. unfold Ascii.compare.
  rewrite <- N2Z.inj_compare, H, H'.
  destruct (Z.compare_spec k k'); [apply Z.compare_eq_iff | apply Z.compare_lt_iff
                                  | apply Z.compare_gt_iff]; lia.
Qed.

Lemma dash_inv s s' : dash s = Some s' → s = String "-" s'.
Proof.
  destruct s as [| c s]; [done |]. unfold dash.
  destruct (Ascii.eqb_spec c "-") as [-> | Hne]; [by intros [= ->] |].
  destruct c as [[] [] [] [] [] [] [] []]; try done.
Qed.

Lemma date_fromisoformat_shape s d :
  date_fromisoformat s = Some d →
  ∃ c1 c2 c3 c4 c5 c6 c7 c8 k1 k2 k3 k4 k5 k6 k7 k8,
    s = String c1 (String c2 (String c3 (String c4 (String "-"
          (String c5 (String c6 (String "-" (String c7 (String c8 "")))))))))
    ∧ digit c1 = Some k1 ∧ digit c2 = Some k2 ∧ digit c3 = Some k3
    ∧ digit c4 = Some k4 ∧ digit c5 = Some k5 ∧ digit c6 = Some k6
    ∧ digit c7 = Some k7 ∧ digit c8 = Some k8
    ∧ d = mkdate (1000 * k1 + 100 * k2 + 10 * k3 + k4) (10 * k5 + k6)
            (10 * k7 + k8).
Proof.
  unfold date_fromisoformat. intros H.
  destruct (digits 4 s 0) as [[y s1] |] eqn:Hy;
    cbn [mbind option_bind] in H; [| done].
  destruct (dash s1) as [s2 |] eqn:H1; cbn [mbind option_bind] in H; [| done].
  destruct (digits 2 s2 0) as [[m s3] |] eqn:Hm;
    cbn [mbind option_bind] in H; [| done].
  destruct (dash s3) as [s4 |] eqn:H2; cbn [mbind option_bind] in H; [| done].
  destruct (digits 2 s4 0) as [[dd s5] |] eqn:Hd;
    cbn [mbind option_bind] in H; [| done].
  destruct s5 as [| ? ?]; cbn [nonempty] in H; [| done].
  destruct (_ && _); [| done]. injection H as <-.
  apply digits_step in Hy as (c1 & k1 & ? & -> & Hk1 & Hy).
  apply digits_step in Hy as (c2 & k2 & ? & -> & Hk2 & Hy).
  apply digits_step in Hy as (c3 & k3 & ? & -> & Hk3 & Hy).
  apply digits_step in Hy as (c4 & k4 & ? & -> & Hk4 & Hy).
  injection Hy as <- ->. apply dash_inv in H1 as ->.
  apply digits_step in Hm as (c5 & k5 & ? & -> & Hk5 & Hm).
  apply digits_step in Hm as (c6 & k6 & ? & -> & Hk6 & Hm).
  injection Hm as <- ->. apply dash_inv in H2 as ->.
  apply digits_step in Hd as (c7 & k7 & ? & -> & Hk7 & Hd).
  apply digits_step in Hd as (c8 & k8 & ? & -> & Hk8 & Hd).
  injection Hd as <- ->.
  exists c1, c2, c3, c4, c5, c6, c7, c8, k1, k2, k3, k4, k5, k6, k7, k8.
  repeat split; try done. f_equal; lia.
Qed.

Lemma date_ltb_lt a b :
  date_ltb a b = true ↔
  year a < year b
  ∨ (year a = year b
     ∧ (month a < month b ∨ (month a = month b ∧ day a < day b))).
Proof.
  unfold date_ltb.
  rewrite !orb_true_iff, !andb_true_iff, !orb_true_iff, !andb_true_iff.
  rewrite !Z.ltb_lt, !Z.eqb_eq. tauto.
Qed.

(** For deadlines in the form [YYYY-MM-DD] the order of the texts is the
    order of the dates. *)
Lemma iso_text_order a b da db :
  date_fromisoformat a = Some da → date_fromisoformat b = Some db →
  text_lt a b ↔ date_ltb da db = true.
Proof.
  intros (c1 & c2 & c3 & c4 & c5 & c6 & c7 & c8 & k1 & k2 & k3 & k4 & k5 & k6
          & k7 & k8 & -> & H1 & H2 & H3 & H4 & H5 & H6 & H7 & H8 & ->)
    %date_fromisoformat_shape.
  intros (e1 & e2 & e3 & e4 & e5 & e6 & e7 & e8 & n1 & n2 & n3 & n4 & n5 & n6
          & n7 & n8 & -> & G1 & G2 & G3 & G4 & G5 & G6 & G7 & G8 & ->)
    %date_fromisoformat_shape.
  unfold text_lt. rewrite date_ltb_lt. cbn [String.compare year month day].
  rewrite (digit_compare _ _ _ _ H1 G1), (digit_compare _ _ _ _ H2 G2),
    (digit_compare _ _ _ _ H3 G3), (digit_compare _ _ _ _ H4 G4),
    (digit_compare _ _ _ _ H5 G5), (digit_compare _ _ _ _ H6 G6),
    (digit_compare _ _ _ _ H7 G7), (digit_compare _ _ _ _ H8 G8).
  change (Ascii.compare "-" "-") with Eq. cbv iota.
  apply digit_value in H1 as [? _], H2 as [? _], H3 as [? _], H4 as [? _],
    H5 as [? _], H6 as [? _], H7 as [? _], H8 as [? _].
  apply digit_value in G1 as [? _], G2 as [? _], G3 as [? _], G4 as [? _],
    G5 as [? _], G6 as [? _], G7 as [? _], G8 as [? _].
  destruct (Z.compare_spec k1 n1); [| split; [lia | done] | split; [done | lia]].
  destruct (Z.compare_spec k2 n2); [| split; [lia | done] | split; [done | lia]].
  destruct (Z.compare_spec k3 n3); [| split; [lia | done] | split; [done | lia]].
  destruct (Z.compare_spec k4 n4); [| split; [lia | done] | split; [done | lia]].
  destruct (Z.compare_spec k5 n5); [| split; [lia | done] | split; [done | lia]].
  destruct (Z.compare_spec k6 n6); [| split; [lia | done] | split; [done | lia]].
  destruct (Z.compare_spec k7 n7); [| split; [lia | done] | split; [done | lia]].
  destruct (Z.compare_spec k8 n8); split; (done || lia).
Qed.

(** C1.  The unfiltered listing of a table of tasks holds the stored
    tasks, each once, in the documented order: by priority rank, then by
    deadline ascending with the tasks without deadline last, then by
    creation time ascending; and this for the rows in any storage
    order.  Deadlines and creation times are compared as the texts they
    are; for deadlines that are dates this is the order of the dates
    ([iso_text_order]). *)
Theorem list_tasks_sorted (db : Db) :
  well_formed db = true →
  ∃ all ts,
    stored_tasks db = Ok all
    ∧ TaskManager.list_tasks db None None None = Ok ts
    ∧ ts ≡ₚ all
    ∧ StronglySorted listed_before ts.
Proof.
  intros Hdb.
  exists (read <$> rows db), (read <$> TaskManager.select db None None None).
  split; [by apply mapM_read |].
  split; [by apply list_tasks_read |].
  split; [by rewrite select_all | by apply select_sorted].
Qed.

Lemma list_tasks_sorted_witness :
  well_formed sample = true
  ∧ ∃ all ts,
      stored_tasks sample = Ok all
      ∧ TaskManager.list_tasks sample None None None = Ok ts
      ∧ ts ≡ₚ all
      ∧ StronglySorted listed_before ts.
Proof. split; [reflexivity | apply (list_tasks_sorted sample); reflexivity]. Defined.

(** ** Search *)

Lemma like_percent pattern text :
  like (String "%" pattern) text
  = like pattern text
    || match text with
       | EmptyString => false
       | String _ text' => like (String "%" pattern) text'
       end.
Proof. by destruct text. Qed.

Lemma like_percent_only text : like "%" text = true.
Proof.
  induction text as [| c text IH]; [done |].
  rewrite like_percent, IH. apply orb_true_r.
Qed.

Lemma like_starts_with term text :
  plain term = true →
  like (term +:+ "%") text = starts_with (lowercase term) (lowercase text).
Proof.
  revert text. induction term as [| a term IH]; intros text Hplain.
  - apply like_percent_only.
  - simpl in Hplain.
    apply andb_true_iff in Hplain as [[Hp Hu]%andb_true_iff Hplain].
    apply negb_true_iff in Hp, Hu. simpl. rewrite Hp.
    destruct text as [| c text]; [done |]. simpl.
    by rewrite Hu, IH.
Qed.

Lemma like_contains term text :
  plain term = true →
  like ("%" +:+ term +:+ "%") text = contains_nocase term text.
Proof.
  intros Hplain. unfold contains_nocase. change ("%" +:+ term +:+ "%")
    with (String "%" (term +:+ "%")).
  induction text as [| c text IH]; rewrite like_percent, like_starts_with by done.
  - done.
  - by rewrite IH.
Qed.

Lemma contains_nocase_empty text : contains_nocase "" text = true.
Proof. unfold contains_nocase. by destruct text. Qed.

Lemma where_search term r :
  plain term = true → valid_row r = true →
  TaskManager.where_ None None (Some term) r
  = mentions contains_nocase term (read r).
Proof.
  intros Hplain Hr. destruct (read_fields r Hr) as (Ht & Hd & _).
  unfold mentions. rewrite Ht, Hd. unfold TaskManager.where_, truthy.
  destruct term as [| a term]; cbn [nonempty andb]; cbv zeta.
  - by rewrite !contains_nocase_empty.
  - by rewrite !like_contains.
Qed.

Lemma filter_fmap_read (w : Row.t → bool) (g : Task.t → bool)
    (l : list Row.t) :
  (∀ r, r ∈ l → w r = g (read r)) →
  filter (fun t => g t) (read <$> l) = read <$> filter (fun r => w r) l.
Proof.
  induction l as [| r l IH]; intros H; [done |].
  rewrite fmap_cons, !filter_cons, (H r) by set_solver.
  rewrite IH by set_solver. by destruct (g (read r)).
Qed.

(** C2, as the specification words it, fails: LIKE folds the case of the
    ASCII letters, so a search for [milk] brings back the task titled
    [Buy MILK], which does not contain that text. *)
Lemma search_ignores_case :
  TaskManager.list_tasks sample None None (Some "milk")
  = Ok [ Task.mk "Buy MILK" "" URGENT IN_PROGRESS (Some "2024-05-11") [] ""
           "2024-05-01T10:00:02" "2024-05-01T10:00:02" (Some 3) ]
  ∧ contains "milk" "Buy MILK" = false
  ∧ contains "milk" "" = false.
Proof. repeat split. Qed.

(** The term goes into the pattern as it is, so a wildcard in it stays
    a wildcard: [_] finds every task with a title. *)
Example search_underscore :
  Task.title <$> (match TaskManager.list_tasks sample None None (Some "_") with
                  | Ok ts => ts
                  | Raise _ => []
                  end)
  = ["B"; "Buy MILK"; "D"; "A"].
Proof. reflexivity. Qed.

(** C2, amended.  For a table of tasks and a search term free of the
    two LIKE wildcards, within what LIKE carries out (no NUL in the term
    or in a stored title or description, the term at most 49998 bytes),
    the search returns exactly the tasks whose title or description
    contains the term as a run of characters up to the case of the
    ASCII letters, and no others; they come in the documented order. *)
Theorem search_matches (db : Db) (term : string) :
  well_formed db = true →
  plain term = true →
  searchable db (Some term) = true →
  ∃ all ts,
    TaskManager.list_tasks db None None None = Ok all
    ∧ TaskManager.list_tasks db None None (Some term) = Ok ts
    ∧ ts ≡ₚ filter (fun t => mentions contains_nocase term t) all
    ∧ StronglySorted listed_before ts.
Proof.
  intros Hdb Hplain _.
  exists (read <$> TaskManager.select db None None None),
         (read <$> TaskManager.select db None None (Some term)).
  split; [by apply list_tasks_read |].
  split; [by apply list_tasks_read |].
  split; [| by apply select_sorted].
  pose proof (select_valid db None None None Hdb) as Hv.
  rewrite forallb_forall in Hv.
  rewrite (filter_fmap_read (TaskManager.where_ None None (Some term))).
  - apply fmap_Permutation. rewrite select_all.
    unfold TaskManager.select. apply merge_sort_Permutation.
  - intros r Hr. apply where_search; [done |]. by apply Hv, list_elem_of_In.
Qed.

Lemma search_matches_witness :
  well_formed sample = true ∧ plain "bank" = true
  ∧ searchable sample (Some "bank") = true
  ∧ ∃ all ts,
      TaskManager.list_tasks sample None None None = Ok all
      ∧ TaskManager.list_tasks sample None None (Some "bank") = Ok ts
      ∧ ts ≡ₚ filter (fun t => mentions contains_nocase "bank" t) all
      ∧ StronglySorted listed_before ts.
Proof.
  split; [reflexivity |]. split; [reflexivity |]. split; [reflexivity |].
  apply (search_matches sample "bank"); reflexivity.
Defined.

(** ** Statistics *)

Lemma sum_values_count key (d : gmap string nat) :
  sum_values (TaskManager.count key d) = S (sum_values d).
Proof.
  unfold sum_values, TaskManager.count.
  destruct (d !! key) as [n |] eqn:Hk; simpl.
  - rewrite <- (insert_delete_eq d).
    rewrite map_fold_insert_L; [| intros; lia | apply lookup_delete_eq].
    rewrite (map_fold_delete_L _ _ key n d); [lia | intros; lia | done].
  - rewrite map_fold_insert_L; [lia | intros; lia | done].
Qed.

Lemma sum_values_empty : sum_values ∅ = 0%nat.
Proof. apply map_fold_empty. Qed.

Lemma foldl_tally fromisoformat today ts acc :
  sum_values (foldl (TaskManager.tally fromisoformat today) acc ts).1.1
  = (sum_values acc.1.1 + length ts)%nat
  ∧ sum_values (foldl (TaskManager.tally fromisoformat today) acc ts).1.2
    = (sum_values acc.1.2 + length ts)%nat
  ∧ (foldl (TaskManager.tally fromisoformat today) acc ts).2
    = (acc.2 + length (filter (fun t => Task.is_overdue fromisoformat today t)
                         ts))%nat.
Proof.
  revert acc. induction ts as [| t ts IH]; intros acc; cbn [foldl].
  - rewrite filter_nil. simpl. repeat split; lia.
  - destruct (IH (TaskManager.tally fromisoformat today acc t))
      as (Ha & Hb & Hc).
    rewrite Ha, Hb, Hc, filter_cons. destruct acc as [[a b] c]. simpl.
    rewrite !sum_values_count.
    destruct (Task.is_overdue fromisoformat today t); simpl; repeat split; lia.
Qed.

(** C7.  The statistics of a table of tasks add up: the counts by
    status sum to the total, the counts by priority sum to the total,
    the total is the number of stored tasks, and the overdue count is
    the number of stored tasks that have the derived property of the
    specification, counted on the table as stored. *)
Theorem stats_counts (fromisoformat : string → option date) (today : date)
    (db : Db) :
  fromisoformat "" = None →
  well_formed db = true →
  ∃ all st,
    stored_tasks db = Ok all
    ∧ TaskManager.stats fromisoformat today db = Ok st
    ∧ TaskManager.total st = length all
    ∧ sum_values (TaskManager.by_status st) = TaskManager.total st
    ∧ sum_values (TaskManager.by_priority st) = TaskManager.total st
    ∧ TaskManager.overdue st
      = length (filter (fun t => overdue fromisoformat today t) all).
Proof.
  intros Hempty Hdb. unfold TaskManager.stats.
  rewrite (list_tasks_read db None None None Hdb). simpl.
  pose proof (foldl_tally fromisoformat today
                (read <$> TaskManager.select db None None None) (∅, ∅, 0%nat))
    as (Hs & Hp & Ho).
  destruct (foldl _ _ _) as [[by_status by_priority] n]. simpl in *.
  rewrite sum_values_empty in Hs, Hp.
  eexists _, _. split; [by apply mapM_read |]. split; [reflexivity |]. simpl.
  assert (Hperm : read <$> TaskManager.select db None None None
                  ≡ₚ read <$> rows db) by by rewrite select_all.
  repeat split; try done.
  - by rewrite Hperm.
  - rewrite Ho, Hperm. simpl. f_equal. apply list_filter_iff. intros t.
    by rewrite is_overdue_overdue.
Qed.

Lemma stats_counts_witness :
  date_fromisoformat "" = None
  ∧ well_formed sample = true
  ∧ ∃ all st,
      stored_tasks sample = Ok all
      ∧ TaskManager.stats date_fromisoformat sample_today sample = Ok st
      ∧ TaskManager.total st = length all
      ∧ sum_values (TaskManager.by_status st) = TaskManager.total st
      ∧ sum_values (TaskManager.by_priority st) = TaskManager.total st
      ∧ TaskManager.overdue st
        = length (filter (fun t => overdue date_fromisoformat sample_today t)
                    all).
Proof.
  split; [reflexivity |]. split; [reflexivity |].
  apply (stats_counts date_fromisoformat sample_today sample); reflexivity.
Defined.

(** ** Export *)

Lemma priority_member t :
  member "priority" (record_of t)
  = Some (JString (Priority_value (Task.priority t))).
Proof. reflexivity. Qed.

Lemma status_member t :
  member "status" (record_of t) = Some (JString (Status_value (Task.status t))).
Proof. reflexivity. Qed.

Lemma tags_member t :
  member "tags" (record_of t) = Some (JArray (JString <$> Task.tags t)).
Proof. reflexivity. Qed.

(** C8.  The export of a table of tasks writes, at the path, a JSON
    array that holds one flat record per stored task, in the documented
    order of a listing; each record gives priority and status as the
    text of an enumeration value and the tags as an array of texts; the
    count returned is the number of records written. *)
Theorem export_json_records (db : Db) (fs : gmap string json) (path : string) :
  well_formed db = true →
  ∃ all ts fs' n,
    stored_tasks db = Ok all
    ∧ TaskManager.export_json db fs path = Ok (fs', n)
    ∧ fs' !! path = Some (JArray (record_of <$> ts))
    ∧ (∀ other, other ≠ path → fs' !! other = fs !! other)
    ∧ n = length (record_of <$> ts)
    ∧ n = length all
    ∧ ts ≡ₚ all
    ∧ StronglySorted listed_before ts
    ∧ ∀ t, t ∈ ts →
        ∃ p s, member "priority" (record_of t) = Some (JString p)
               ∧ p ∈ priorities
               ∧ member "status" (record_of t) = Some (JString s)
               ∧ s ∈ statuses
               ∧ member "tags" (record_of t)
                 = Some (JArray (JString <$> Task.tags t)).
Proof.
  intros Hdb.
  assert (Hperm : read <$> TaskManager.select db None None None
                  ≡ₚ read <$> rows db) by by rewrite select_all.
  exists (read <$> rows db), (read <$> TaskManager.select db None None None).
  eexists _, _. split; [by apply mapM_read |].
  split.
  { unfold TaskManager.export_json.
    rewrite (list_tasks_read db None None None Hdb). reflexivity. }
  split; [apply lookup_insert_eq |].
  split; [intros other Hne; by apply lookup_insert_ne |].
  split; [done |].
  split; [by rewrite length_fmap, Hperm |].
  split; [done |].
  split; [by apply select_sorted |].
  intros t _.
  exists (Priority_value (Task.priority t)), (Status_value (Task.status t)).
  split; [apply priority_member |].
  split; [apply Priority_value_enum |].
  split; [apply status_member |].
  split; [apply Status_value_enum | apply tags_member].
Qed.

Lemma export_json_records_witness :
  well_formed sample = true
  ∧ ∃ all ts fs' n,
      stored_tasks sample = Ok all
      ∧ TaskManager.export_json sample ∅ "tasks_export.json" = Ok (fs', n)
      ∧ fs' !! "tasks_export.json" = Some (JArray (record_of <$> ts))
      ∧ n = length (record_of <$> ts)
      ∧ n = length all.
Proof.
  split; [reflexivity |].
  destruct (export_json_records sample ∅ "tasks_export.json")
    as (all & ts & fs' & n & H1 & H2 & H3 & _ & H4 & H5 & _); [reflexivity |].
  by exists all, ts, fs', n.
Defined.

(** ** The scenario of the specification *)

(** Three tasks added as A (low, no deadline), B (urgent, due yesterday)
    and C (urgent, due tomorrow) are listed B, C, A, and one of them is
    overdue. *)
Example scenario :
  let db := session [ Add "2024-05-01T10:00:00" "A" "" "low" None None "";
                      Add "2024-05-01T10:00:01" "B" "" "urgent"
                        (Some "2024-05-09") None "";
                      Add "2024-05-01T10:00:02" "C" "" "urgent"
                        (Some "2024-05-11") None "" ] in
  (Task.title <$> (match TaskManager.list_tasks db None None None with
                   | Ok ts => ts
                   | Raise _ => []
                   end)
   = ["B"; "C"; "A"])
  ∧ (TaskManager.overdue
       <$> (match TaskManager.stats date_fromisoformat sample_today db with
            | Ok st => Some st
            | Raise _ => None
            end)
     = Some 1%nat).
Proof. split; reflexivity. Qed.

(** * Further properties of the engine *)

(** ** Reading rows back *)

Lemma read_status r :
  valid_row r = true → Row.status r = Status_value (Task.status (read r)).
Proof.
  intros Hr. pose proof (read_Ok r Hr) as H. revert H.
  unfold TaskManager._row_to_task.
  destruct (Priority_of (Row.priority r)) as [p |]; [simpl | done].
  destruct (Status_of (Row.status r)) as [s |] eqn:Hs; [simpl | done].
  intros [= <-]. simpl. by apply Status_of_Ok.
Qed.

Lemma read_more r :
  valid_row r = true →
  Task.id (read r) = Some (Row.id r)
  ∧ Task.updated_at (read r) = Row.updated_at r
  ∧ Task.tags (read r) = Row.tags r
  ∧ Task.notes (read r) = Row.notes r.
Proof.
  intros Hr. pose proof (read_Ok r Hr) as H. revert H.
  unfold TaskManager._row_to_task.
  destruct (Priority_of (Row.priority r)) as [p |]; [simpl | done].
  destruct (Status_of (Row.status r)) as [s |]; [simpl | done].
  by intros [= <-].
Qed.

Lemma mapM_Raise {A B} (f : A → res B) (l : list A) x :
  x ∈ l → f x = Raise ValueError → mapM f l = Raise ValueError.
Proof.
  intros Hx Hf. induction l as [| y l IH]; [by apply elem_of_nil in Hx |].
  simpl. apply elem_of_cons in Hx as [<- | Hx].
  - by rewrite Hf.
  - destruct (f y) as [b | []]; [simpl | done]. by rewrite IH.
Qed.

Lemma invalid_row_raises r :
  valid_row r = false → TaskManager._row_to_task r = Raise ValueError.
Proof.
  intros Hr. destruct (TaskManager._row_to_task r) as [t | []] eqn:E; [| done].
  assert (valid_row r = true) by (apply valid_row_task; eauto). congruence.
Qed.

(** ** Filters *)

Lemma where_selected status priority search r :
  plain (default "" search) = true → valid_row r = true →
  TaskManager.where_ status priority search r
  = selected status priority search (read r).
Proof.
  intros Hplain Hr. destruct (read_fields r Hr) as (Ht & Hd & _).
  unfold TaskManager.where_, selected, mentions.
  rewrite Ht, Hd, <- (read_status r Hr), <- (read_priority r Hr).
  do 2 f_equal. unfold truthy.
  destruct search as [[| a term] |]; cbn [nonempty]; cbv zeta; [done | | done].
  simpl in Hplain. by rewrite !like_contains.
Qed.

(** X1.  Each supplied filter restricts the listing and all of them
    together intersect: for a table of tasks and a search term free of
    wildcards (or none) that LIKE carries out (no NUL in the term or in
    a stored title or description, the term at most 49998 bytes), the
    listing holds exactly the tasks that pass every non-empty filter, in
    the documented order. *)
Theorem list_tasks_filters (db : Db) (status priority search : option string) :
  well_formed db = true →
  plain (default "" search) = true →
  searchable db search = true →
  ∃ all ts,
    TaskManager.list_tasks db None None None = Ok all
    ∧ TaskManager.list_tasks db status priority search = Ok ts
    ∧ ts ≡ₚ filter (fun t => selected status priority search t) all
    ∧ StronglySorted listed_before ts.
Proof.
  intros Hdb Hplain _.
  exists (read <$> TaskManager.select db None None None),
         (read <$> TaskManager.select db status priority search).
  split; [by apply list_tasks_read |].
  split; [by apply list_tasks_read |].
  split; [| by apply select_sorted].
  pose proof (select_valid db None None None Hdb) as Hv.
  rewrite forallb_forall in Hv.
  rewrite (filter_fmap_read (TaskManager.where_ status priority search)).
  - apply fmap_Permutation. rewrite select_all.
    unfold TaskManager.select. apply merge_sort_Permutation.
  - intros r Hr. apply where_selected; [done |]. by apply Hv, list_elem_of_In.
Qed.

Lemma list_tasks_filters_witness :
  well_formed sample = true
  ∧ plain (default "" (Some "b")) = true
  ∧ searchable sample (Some "b") = true
  ∧ ∃ all ts,
      TaskManager.list_tasks sample None None None = Ok all
      ∧ TaskManager.list_tasks sample (Some "pending") (Some "urgent")
          (Some "b") = Ok ts
      ∧ ts ≡ₚ filter (fun t => selected (Some "pending") (Some "urgent")
                                 (Some "b") t) all
      ∧ StronglySorted listed_before ts.
Proof.
  split; [reflexivity |]. split; [reflexivity |]. split; [reflexivity |].
  apply (list_tasks_filters sample (Some "pending") (Some "urgent") (Some "b"));
    reflexivity.
Defined.

Lemma where_unknown_status db value priority search r :
  well_formed db = true → nonempty value = true → value ∉ statuses →
  r ∈ rows db → TaskManager.where_ (Some value) priority search r = false.
Proof.
  intros Hdb Hne Hv Hr. apply well_formed_enums in Hdb.
  destruct (Hdb r Hr) as [_ Hs]. unfold TaskManager.where_, truthy.
  rewrite Hne. by destruct (String.eqb_spec (Row.status r) value) as [<- | _].
Qed.

Lemma where_unknown_priority db value status search r :
  well_formed db = true → nonempty value = true → value ∉ priorities →
  r ∈ rows db → TaskManager.where_ status (Some value) search r = false.
Proof.
  intros Hdb Hne Hv Hr. apply well_formed_enums in Hdb.
  destruct (Hdb r Hr) as [Hp _]. unfold TaskManager.where_, truthy.
  rewrite Hne.
  destruct (String.eqb_spec (Row.priority r) value) as [<- | _]; [done |].
  by rewrite andb_false_r.
Qed.

(** X2.  A status filter that is no value of the enumeration is not an
    error: on a table of tasks the listing is empty, whatever the other
    filters are. *)
Theorem list_tasks_unknown_status (db : Db) (value : string)
    (priority search : option string) :
  well_formed db = true →
  nonempty value = true →
  value ∉ statuses →
  TaskManager.list_tasks db (Some value) priority search = Ok [].
Proof.
  intros Hdb Hne Hv. unfold TaskManager.list_tasks, TaskManager.select.
  rewrite (filter_none (fun r => TaskManager.where_ _ _ _ r)); [done |].
  intros r Hr. by eapply where_unknown_status.
Qed.

Lemma list_tasks_unknown_status_witness :
  well_formed sample = true ∧ nonempty "open" = true ∧ ("open" ∉ statuses)
  ∧ TaskManager.list_tasks sample (Some "open") None None = Ok [].
Proof.
  assert (H : "open" ∉ statuses).
  { unfold statuses. rewrite !not_elem_of_cons. repeat split; try done.
    apply not_elem_of_nil. }
  split; [reflexivity |]. split; [reflexivity |]. split; [exact H |].
  apply (list_tasks_unknown_status sample "open" None None);
    [reflexivity | reflexivity | exact H].
Defined.

(** The same for a priority filter. *)
Lemma list_tasks_unknown_priority (db : Db) (value : string)
    (status search : option string) :
  well_formed db = true →
  nonempty value = true →
  value ∉ priorities →
  TaskManager.list_tasks db status (Some value) search = Ok [].
Proof.
  intros Hdb Hne Hv. unfold TaskManager.list_tasks, TaskManager.select.
  rewrite (filter_none (fun r => TaskManager.where_ _ _ _ r)); [done |].
  intros r Hr. by eapply where_unknown_priority.
Qed.

(** ** Identifiers *)

Lemma add_Ok_inv now db title description priority deadline tags notes t db' :
  TaskManager.add now db title description priority deadline tags notes
  = Ok (t, db') →
  ∃ row, db' = mkDb (rows db ++ [row]) (next_rowid db)
         ∧ Row.id row = next_rowid db
         ∧ Task.id t = Some (next_rowid db)
         ∧ valid_row row = true
         ∧ read row = t.
Proof.
  unfold TaskManager.add.
  destruct (Priority_of priority) as [p |]; [simpl | done].
  intros [= <- <-]. eexists. split; [reflexivity |].
  split; [done |]. split; [done |].
  unfold valid_row, read, TaskManager._row_to_task. simpl.
  by rewrite Priority_of_value.
Qed.

Lemma next_rowid_seq db : seq db < next_rowid db.
Proof. unfold next_rowid. lia. Qed.

Lemma max_rowid_nonneg l : 0 ≤ max_rowid l.
Proof. induction l; simpl; lia. Qed.

Lemma perform_seq db c : seq db ≤ seq (perform db c).
Proof.
  destruct c as [now title description priority deadline tags notes
                | now task_id new_status | task_id]; simpl; try done.
  destruct (TaskManager.add _ _ _ _ _ _ _ _) as [[t db'] |] eqn:E; [| done].
  apply add_Ok_inv in E as (row & -> & _). simpl.
  pose proof (next_rowid_seq db). lia.
Qed.

Lemma foldl_perform_seq cs db : seq db ≤ seq (foldl perform db cs).
Proof.
  revert db. induction cs as [| c cs IH]; intros db; simpl; [done |].
  pose proof (perform_seq db c). pose proof (IH (perform db c)). lia.
Qed.

Lemma update_status_ids now db task_id new_status :
  Row.id <$> rows (TaskManager.update_status now db task_id new_status).1
  = Row.id <$> rows db.
Proof.
  simpl. induction (rows db) as [| r l IH]; [done |].
  rewrite !fmap_cons, IH. by destruct (Row.id r =? task_id).
Qed.

Lemma delete_ids db task_id :
  Row.id <$> rows (TaskManager.delete db task_id).1
  = filter (fun i => i ≠ task_id) (Row.id <$> rows db).
Proof.
  simpl. induction (rows db) as [| r l IH]; [done |].
  rewrite fmap_cons, !filter_cons.
  destruct (Z.eqb_spec (Row.id r) task_id) as [Heq | Hne]; csimpl.
  - by rewrite decide_False by auto.
  - rewrite decide_True by done. by rewrite IH.
Qed.

Lemma perform_ids_ok db c : ids_ok db → ids_ok (perform db c).
Proof.
  intros [Hnd Hle].
  destruct c as [now title description priority deadline tags notes
                | now task_id new_status | task_id]; cbn [perform].
  - destruct (TaskManager.add _ _ _ _ _ _ _ _) as [[t db'] |] eqn:E; [| done].
    apply add_Ok_inv in E as (row & -> & Hid & _). split; simpl.
    + rewrite fmap_app. simpl. apply NoDup_app. split; [done |].
      split; [| apply NoDup_singleton].
      intros i (r & -> & Hr)%list_elem_of_fmap Hi%list_elem_of_singleton.
      apply next_rowid_fresh in Hr. lia.
    + intros r [Hr | Hr%list_elem_of_singleton]%elem_of_app.
      * pose proof (Hle r Hr). pose proof (next_rowid_seq db). lia.
      * subst r. rewrite Hid. pose proof (next_rowid_seq db).
        pose proof (max_rowid_nonneg (rows db)). unfold next_rowid. lia.
  - split.
    + by rewrite update_status_ids.
    + simpl. intros r' (r & -> & Hr)%list_elem_of_fmap.
      pose proof (Hle r Hr). by destruct (Row.id r =? task_id).
  - split.
    + rewrite delete_ids. by apply NoDup_filter.
    + simpl. intros r [_ Hr]%list_elem_of_filter. by apply Hle.
Qed.

Lemma foldl_perform_ids_ok cs db : ids_ok db → ids_ok (foldl perform db cs).
Proof.
  revert db. induction cs as [| c cs IH]; intros db Hdb; simpl; [done |].
  by apply IH, perform_ids_ok.
Qed.

Lemma ids_ok_init : ids_ok (TaskManager._init_db None).
Proof.
  split; simpl; [constructor |]. intros r Hr. by apply elem_of_nil in Hr.
Qed.

(** X3.  In every session on a new database no two stored tasks share
    an identifier, every identifier is positive, and none exceeds the
    AUTOINCREMENT counter. *)
Theorem session_ids_ok (cs : list call) : ids_ok (session cs).
Proof. apply foldl_perform_ids_ok, ids_ok_init. Qed.

(** X4.  An identifier is never handed out twice: the task that [add]
    creates at any later point of a session gets an identifier larger
    than that of every task that was ever in the table, deleted or
    not. *)
Theorem add_never_reuses_id (cs cs' : list call) (r : Row.t)
    (now title description priority : string) (deadline : option string)
    (tags : option (list string)) (notes : string) (t : Task.t) (db' : Db) :
  r ∈ rows (session cs) →
  TaskManager.add now (session (cs ++ cs')) title description priority
    deadline tags notes = Ok (t, db') →
  ∃ i, Task.id t = Some i ∧ Row.id r < i.
Proof.
  intros Hr (row & _ & _ & Hid & _)%add_Ok_inv.
  exists (next_rowid (session (cs ++ cs'))). split; [done |].
  destruct (foldl_perform_ids_ok cs _ ids_ok_init) as [_ Hle].
  pose proof (Hle r Hr) as Hr'. fold (session cs) in Hr'.
  unfold session in *. rewrite foldl_app.
  pose proof (foldl_perform_seq cs' (foldl perform (TaskManager._init_db None) cs)).
  pose proof (next_rowid_seq
                (foldl perform (foldl perform (TaskManager._init_db None) cs) cs')).
  lia.
Qed.

Lemma add_never_reuses_id_witness :
  ∃ i, Some 3 = Some i ∧ 1 < i.
Proof.
  apply (add_never_reuses_id
           [ Add "2024-05-01T10:00:00" "A" "" "low" None None "";
             Add "2024-05-01T10:00:01" "B" "" "high" None None "" ]
           [ Delete 2; Delete 1 ]
           (Row.mk 1 "A" "" "low" "pending" None [] ""
              "2024-05-01T10:00:00" "2024-05-01T10:00:00")
           "2024-05-01T10:00:02" "C" "" "low" None None ""
           (Task.mk "C" "" LOW PENDING None [] "" "2024-05-01T10:00:02"
              "2024-05-01T10:00:02" (Some 3))
           (mkDb [Row.mk 3 "C" "" "low" "pending" None [] ""
                    "2024-05-01T10:00:02" "2024-05-01T10:00:02"] 3)).
  - apply list_elem_of_here.
  - reflexivity.
Defined.


(** ** Deletion *)

Lemma rowcount_positive (l : list Row.t) task_id r :
  r ∈ l → Row.id r = task_id →
  bool_decide (0 < length (filter (fun r => Z.eqb (Row.id r) task_id) l))%nat
  = true.
Proof.
  intros Hr Hid. apply bool_decide_eq_true.
  assert (H : r ∈ filter (fun r => Row.id r =? task_id) l).
  { apply list_elem_of_filter. split; [| done].
    apply Is_true_true, Z.eqb_eq, Hid. }
  destruct (filter _ l); [by apply elem_of_nil in H | simpl; lia].
Qed.

(** X5.  Deleting the id of a stored task returns true and removes
    exactly the rows with that id: the other rows stay, in their order,
    and the counter is kept.  A second delete of the same id finds
    nothing: it returns false and changes nothing. *)
Theorem delete_removes (db : Db) (task_id : Z) :
  (∃ r, r ∈ rows db ∧ Row.id r = task_id) →
  ∃ db',
    TaskManager.delete db task_id = (db', true)
    ∧ (∀ r, r ∈ rows db' ↔ r ∈ rows db ∧ Row.id r ≠ task_id)
    ∧ rows db' `sublist_of` rows db
    ∧ seq db' = seq db
    ∧ TaskManager.delete db' task_id = (db', false).
Proof.
  intros (r0 & Hr0 & Hid0).
  assert (Hin : ∀ r, r ∈ filter (fun r => negb (Row.id r =? task_id)) (rows db)
                     ↔ r ∈ rows db ∧ Row.id r ≠ task_id).
  { intros r. rewrite list_elem_of_filter.
    destruct (Z.eqb_spec (Row.id r) task_id); simpl; tauto. }
  eexists. split; [| split; [| split; [| split]]].
  - unfold TaskManager.delete. f_equal. by eapply rowcount_positive.
  - exact Hin.
  - apply sublist_filter.
  - done.
  - unfold TaskManager.delete. simpl.
    rewrite (filter_none (fun r => Row.id r =? task_id)).
    + f_equal. f_equal.
      apply (filter_all (fun r => negb (Row.id r =? task_id))).
      intros r [_ Hr]%Hin. by apply negb_true_iff, Z.eqb_neq.
    + intros r [_ Hr]%Hin. by apply Z.eqb_neq.
Qed.

Lemma delete_removes_witness :
  (∃ r, r ∈ rows sample ∧ Row.id r = 3)
  ∧ ∃ db',
      TaskManager.delete sample 3 = (db', true)
      ∧ (∀ r, r ∈ rows db' ↔ r ∈ rows sample ∧ Row.id r ≠ 3)
      ∧ rows db' `sublist_of` rows sample
      ∧ seq db' = seq sample
      ∧ TaskManager.delete db' 3 = (db', false).
Proof.
  assert (H : ∃ r, r ∈ rows sample ∧ Row.id r = 3).
  { exists (Row.mk 3 "Buy MILK" "" "urgent" "in_progress" (Some "2024-05-11")
              [] "" "2024-05-01T10:00:02" "2024-05-01T10:00:02").
    split; [| reflexivity]. unfold sample; simpl.
    apply list_elem_of_further, list_elem_of_further, list_elem_of_here. }
  split; [exact H | exact (delete_removes sample 3 H)].
Defined.

(** ** Insertion and listing *)

Lemma well_formed_app db row sq :
  well_formed db = true → valid_row row = true →
  well_formed (mkDb (rows db ++ [row]) sq) = true.
Proof.
  unfold well_formed. simpl. intros Hdb Hrow.
  rewrite forallb_app, Hdb. simpl. by rewrite Hrow.
Qed.

(** X6.  What [add] returns is what the next listing shows: after an
    [add] that returns, the table still reads back as tasks and its
    unfiltered listing holds the returned task together with the tasks
    listed before, each once, in the documented order. *)
Theorem add_then_list (now : string) (db : Db)
    (title description priority : string) (deadline : option string)
    (tags : option (list string)) (notes : string) (t : Task.t) (db' : Db) :
  well_formed db = true →
  TaskManager.add now db title description priority deadline tags notes
  = Ok (t, db') →
  ∃ before after,
    TaskManager.list_tasks db None None None = Ok before
    ∧ TaskManager.list_tasks db' None None None = Ok after
    ∧ after ≡ₚ t :: before
    ∧ StronglySorted listed_before after
    ∧ well_formed db' = true.
Proof.
  intros Hdb (row & -> & _ & _ & Hrow & <-)%add_Ok_inv.
  pose proof (well_formed_app db row (next_rowid db) Hdb Hrow) as Hdb'.
  exists (read <$> TaskManager.select db None None None),
         (read <$> TaskManager.select (mkDb (rows db ++ [row]) (next_rowid db))
                     None None None).
  split; [by apply list_tasks_read |].
  split; [by apply list_tasks_read |].
  split; [| split; [by apply select_sorted | done]].
  rewrite !select_all. simpl. rewrite fmap_app. simpl.
  by rewrite <- Permutation_cons_append.
Qed.

Lemma add_then_list_witness :
  well_formed sample = true
  ∧ ∃ t db' before after,
      TaskManager.add "2024-05-03T09:00:00" sample "E" "" "urgent"
        (Some "2024-06-01") None "" = Ok (t, db')
      ∧ TaskManager.list_tasks sample None None None = Ok before
      ∧ TaskManager.list_tasks db' None None None = Ok after
      ∧ after ≡ₚ t :: before.
Proof.
  split; [reflexivity |].
  eexists _, _.
  destruct (add_then_list "2024-05-03T09:00:00" sample "E" "" "urgent"
              (Some "2024-06-01") None "" _ _ eq_refl eq_refl)
    as (before & after & H1 & H2 & H3 & _).
  exists before, after. split; [reflexivity |]. by repeat split.
Defined.

(** ** Status updates read back *)

Lemma set_status_valid s now r :
  valid_row r = true → valid_row (Row.set_status (Status_value s) now r) = true.
Proof.
  unfold valid_row. simpl. rewrite Status_of_value.
  by intros [-> _]%andb_true_iff.
Qed.

Lemma update_status_well_formed now db task_id s :
  well_formed db = true →
  well_formed (TaskManager.update_status now db task_id (Status_value s)).1
  = true.
Proof.
  unfold well_formed. simpl. rewrite !forallb_forall.
  intros Hdb r' Hr'%list_elem_of_In.
  apply list_elem_of_fmap in Hr' as (r & -> & Hr%list_elem_of_In).
  destruct (Row.id r =? task_id); [| by apply Hdb].
  by apply set_status_valid, Hdb.
Qed.

(** X7.  A status update shows in the next listing: after
    [update_status] with a value of the enumeration, every listed task
    with that id has the new status and the new [updated_at]; marked
    done or cancelled, it is not overdue. *)
Theorem update_status_then_list (fromisoformat : string → option date)
    (today : date) (now : string) (db : Db) (task_id : Z) (s : Status) :
  well_formed db = true →
  ∃ ts,
    TaskManager.list_tasks
      (TaskManager.update_status now db task_id (Status_value s)).1
      None None None = Ok ts
    ∧ ∀ t, t ∈ ts → Task.id t = Some task_id →
        Task.status t = s ∧ Task.updated_at t = now
        ∧ (s = DONE ∨ s = CANCELLED →
           Task.is_overdue fromisoformat today t = false).
Proof.
  intros Hdb.
  pose proof (update_status_well_formed now db task_id s Hdb) as Hdb'.
  eexists. split; [by apply list_tasks_read |].
  intros t (r' & -> & Hr')%list_elem_of_fmap Hid.
  rewrite select_all in Hr'. simpl in Hr'.
  apply list_elem_of_fmap in Hr' as (r & -> & Hr).
  assert (Hv : valid_row r = true).
  { unfold well_formed in Hdb. rewrite forallb_forall in Hdb.
    by apply Hdb, list_elem_of_In. }
  destruct (Z.eqb_spec (Row.id r) task_id) as [Heq | Hne].
  - pose proof (set_status_valid s now r Hv) as Hv'.
    pose proof (read_status _ Hv') as Hs. simpl in Hs.
    destruct (read_more _ Hv') as (_ & Hu & _). simpl in Hu.
    assert (Hst : Task.status (read (Row.set_status (Status_value s) now r)) = s).
    { destruct s, (Task.status (read (Row.set_status _ now r))); done. }
    split; [done |]. split; [done |].
    intros Hclosed. unfold Task.is_overdue. rewrite Hst.
    destruct (truthy _); [| done]. by destruct Hclosed as [-> | ->].
  - destruct (read_more r Hv) as (Hid' & _). congruence.
Qed.

Lemma update_status_then_list_witness :
  well_formed sample = true
  ∧ ∃ ts,
      TaskManager.list_tasks
        (TaskManager.update_status "2024-05-12T09:00:00" sample 2
           (Status_value DONE)).1 None None None = Ok ts
      ∧ ∀ t, t ∈ ts → Task.id t = Some 2 →
          Task.status t = DONE ∧ Task.updated_at t = "2024-05-12T09:00:00"
          ∧ (DONE = DONE ∨ DONE = CANCELLED →
             Task.is_overdue date_fromisoformat sample_today t = false).
Proof.
  split; [reflexivity |].
  apply (update_status_then_list date_fromisoformat sample_today
           "2024-05-12T09:00:00" sample 2 DONE). reflexivity.
Defined.

(** ** A status outside the enumeration *)

Lemma select_all_elem db r :
  r ∈ TaskManager.select db None None None ↔ r ∈ rows db.
Proof. by rewrite select_all. Qed.

Lemma list_tasks_invalid_row db r :
  r ∈ rows db → valid_row r = false →
  TaskManager.list_tasks db None None None = Raise ValueError.
Proof.
  intros Hr Hv. unfold TaskManager.list_tasks.
  apply (mapM_Raise _ _ r); [by apply select_all_elem |].
  by apply invalid_row_raises.
Qed.

(** X8.  The engine takes any text as a status, but cannot read it
    back: once [update_status] has written a text outside the
    enumeration to a stored task, the unfiltered listing, the
    statistics and the export all raise [ValueError]. *)
Theorem unknown_status_breaks_reads (fromisoformat : string → option date)
    (today : date) (now : string) (db : Db) (task_id : Z) (new_status : string)
    (fs : gmap string json) (path : string) :
  (∃ r, r ∈ rows db ∧ Row.id r = task_id) →
  new_status ∉ statuses →
  ∃ db',
    TaskManager.update_status now db task_id new_status = (db', true)
    ∧ TaskManager.list_tasks db' None None None = Raise ValueError
    ∧ TaskManager.stats fromisoformat today db' = Raise ValueError
    ∧ TaskManager.export_json db' fs path = Raise ValueError.
Proof.
  intros (r & Hr & Hid) Hbad.
  assert (Hlist : TaskManager.list_tasks
                    (TaskManager.update_status now db task_id new_status).1
                    None None None = Raise ValueError).
  { apply (list_tasks_invalid_row _ (Row.set_status new_status now r)).
    - simpl. apply list_elem_of_fmap. exists r. split; [| done].
      by rewrite (proj2 (Z.eqb_eq _ _) Hid).
    - destruct (valid_row _) eqn:Hv; [| done].
      apply valid_row_enums in Hv as [_ Hs]. by destruct Hbad. }
  eexists. split; [| split; [exact Hlist | split]].
  - unfold TaskManager.update_status. f_equal. by eapply rowcount_positive.
  - unfold TaskManager.stats. by rewrite Hlist.
  - unfold TaskManager.export_json. by rewrite Hlist.
Qed.

Lemma unknown_status_breaks_reads_witness :
  (∃ r, r ∈ rows sample ∧ Row.id r = 3) ∧ ("finished" ∉ statuses)
  ∧ ∃ db',
      TaskManager.update_status "2024-05-12T09:00:00" sample 3 "finished"
      = (db', true)
      ∧ TaskManager.list_tasks db' None None None = Raise ValueError
      ∧ TaskManager.stats date_fromisoformat sample_today db'
        = Raise ValueError
      ∧ TaskManager.export_json db' ∅ "tasks_export.json" = Raise ValueError.
Proof.
  assert (H : ∃ r, r ∈ rows sample ∧ Row.id r = 3).
  { exists (Row.mk 3 "Buy MILK" "" "urgent" "in_progress" (Some "2024-05-11")
              [] "" "2024-05-01T10:00:02" "2024-05-01T10:00:02").
    split; [| reflexivity]. unfold sample; simpl.
    apply list_elem_of_further, list_elem_of_further, list_elem_of_here. }
  assert (H' : "finished" ∉ statuses).
  { unfold statuses. rewrite !not_elem_of_cons. repeat split; try done.
    apply not_elem_of_nil. }
  split; [exact H |]. split; [exact H' |].
  exact (unknown_status_breaks_reads date_fromisoformat sample_today
           "2024-05-12T09:00:00" sample 3 "finished" ∅ "tasks_export.json"
           H H').
Defined.

(** ** Histograms *)

Lemma count_lookup key k (d : gmap string nat) :
  TaskManager.count key d !! k
  = if decide (key = k) then Some (S (default 0%nat (d !! key))) else d !! k.
Proof.
  unfold TaskManager.count. rewrite lookup_insert. case_decide; [| done].
  f_equal. lia.
Qed.

Lemma entry_S n : entry (S n) = Some (S n).
Proof. done. Qed.

Lemma entry_default n : default 0%nat (entry n) = n.
Proof. by destruct n. Qed.

Lemma foldl_count (keys : list string) (d : gmap string nat) k n :
  d !! k = entry n →
  foldl (fun d key => TaskManager.count key d) d keys !! k
  = entry (n + occurrences k keys).
Proof.
  revert d n. induction keys as [| key keys IH]; intros d n Hd; simpl.
  - unfold occurrences. simpl. by rewrite Nat.add_0_r.
  - unfold occurrences. rewrite filter_cons. case_decide as Hk.
    + subst key. simpl. rewrite Nat.add_succ_r, <- Nat.add_succ_l.
      apply IH. rewrite count_lookup, decide_True by done.
      by rewrite Hd, entry_default.
    + apply IH. by rewrite count_lookup, decide_False.
Qed.

Lemma foldl_tally_status fromisoformat today ts acc :
  (foldl (TaskManager.tally fromisoformat today) acc ts).1.1
  = foldl (fun d key => TaskManager.count key d) acc.1.1
      ((fun t => Status_value (Task.status t)) <$> ts).
Proof.
  revert acc. induction ts as [| t ts IH]; intros [[a b] c]; [done |].
  cbn [foldl fmap list_fmap]. by rewrite IH.
Qed.

Lemma foldl_tally_priority fromisoformat today ts acc :
  (foldl (TaskManager.tally fromisoformat today) acc ts).1.2
  = foldl (fun d key => TaskManager.count key d) acc.1.2
      ((fun t => Priority_value (Task.priority t)) <$> ts).
Proof.
  revert acc. induction ts as [| t ts IH]; intros [[a b] c]; [done |].
  cbn [foldl fmap list_fmap]. by rewrite IH.
Qed.

Lemma occurrences_Permutation k l l' :
  l ≡ₚ l' → occurrences k l = occurrences k l'.
Proof. intros H. unfold occurrences. by rewrite H. Qed.

(** X9.  The two histograms of the statistics are exact: for every
    text, [by_status] holds the number of stored tasks with that status
    and [by_priority] the number with that priority, and a text that no
    stored task has is no key at all (no entry with count zero). *)
Theorem stats_histograms (fromisoformat : string → option date) (today : date)
    (db : Db) :
  well_formed db = true →
  ∃ all st,
    stored_tasks db = Ok all
    ∧ TaskManager.stats fromisoformat today db = Ok st
    ∧ ∀ k,
        TaskManager.by_status st !! k
        = entry (occurrences k ((fun t => Status_value (Task.status t)) <$> all))
        ∧ TaskManager.by_priority st !! k
          = entry (occurrences k
                     ((fun t => Priority_value (Task.priority t)) <$> all)).
Proof.
  intros Hdb. unfold TaskManager.stats.
  rewrite (list_tasks_read db None None None Hdb). simpl.
  pose proof (foldl_tally_status fromisoformat today
                (read <$> TaskManager.select db None None None) (∅, ∅, 0%nat))
    as Hs.
  pose proof (foldl_tally_priority fromisoformat today
                (read <$> TaskManager.select db None None None) (∅, ∅, 0%nat))
    as Hp.
  destruct (foldl _ _ _) as [[by_status by_priority] n]. simpl in Hs, Hp.
  subst by_status by_priority.
  eexists _, _. split; [by apply mapM_read |]. split; [reflexivity |].
  assert (Hperm : read <$> TaskManager.select db None None None
                  ≡ₚ read <$> rows db) by by rewrite select_all.
  intros k. simpl. split.
  - rewrite (foldl_count _ ∅ k 0) by apply lookup_empty. simpl.
    f_equal. apply occurrences_Permutation. by rewrite Hperm.
  - rewrite (foldl_count _ ∅ k 0) by apply lookup_empty. simpl.
    f_equal. apply occurrences_Permutation. by rewrite Hperm.
Qed.

Lemma stats_histograms_witness :
  well_formed sample = true
  ∧ ∃ all st,
      stored_tasks sample = Ok all
      ∧ TaskManager.stats date_fromisoformat sample_today sample = Ok st
      ∧ ∀ k,
          TaskManager.by_status st !! k
          = entry (occurrences k
                     ((fun t => Status_value (Task.status t)) <$> all))
          ∧ TaskManager.by_priority st !! k
            = entry (occurrences k
                       ((fun t => Priority_value (Task.priority t)) <$> all)).
Proof.
  split; [reflexivity |].
  apply (stats_histograms date_fromisoformat sample_today sample). reflexivity.
Defined.

(** ** More on the search *)

Lemma lower_percent c : Ascii.eqb (lower c) "%" = Ascii.eqb c "%".
Proof. by destruct c as [[] [] [] [] [] [] [] []]. Qed.

Lemma lower_underscore c : Ascii.eqb (lower c) "_" = Ascii.eqb c "_".
Proof. by destruct c as [[] [] [] [] [] [] [] []]. Qed.

Lemma lower_lower c : lower (lower c) = lower c.
Proof. by destruct c as [[] [] [] [] [] [] [] []]. Qed.

Lemma like_lowercase pattern text :
  like (lowercase pattern) text = like pattern text.
Proof.
  revert text. induction pattern as [| p pattern IH]; intros text; [done |].
  simpl. rewrite lower_percent. destruct (Ascii.eqb p "%").
  - induction text as [| c text IHt]; [by rewrite IH |].
    by rewrite IH, IHt.
  - destruct text as [| c text]; [done |].
    by rewrite lower_underscore, lower_lower, IH.
Qed.

Lemma lowercase_app a b : lowercase (a +:+ b) = lowercase a +:+ lowercase b.
Proof. induction a as [| c a IH]; [done |]. simpl. by rewrite IH. Qed.

Lemma lowercase_nonempty s : nonempty (lowercase s) = nonempty s.
Proof. by destruct s. Qed.

Lemma where_lowercase status priority term r :
  TaskManager.where_ status priority (Some (lowercase term)) r
  = TaskManager.where_ status priority (Some term) r.
Proof.
  unfold TaskManager.where_, truthy. rewrite lowercase_nonempty.
  destruct (nonempty term); [| done]. cbv zeta.
  rewrite <- (like_lowercase ("%" +:+ term +:+ "%")).
  rewrite <- (like_lowercase ("%" +:+ term +:+ "%") (Row.description r)).
  by rewrite !lowercase_app.
Qed.

(** X10.  The search does not look at the case of the ASCII letters of
    the term: two terms that differ in case only give the same listing,
    wildcards or not, on any table. *)
Theorem search_term_case (db : Db) (status priority : option string)
    (term term' : string) :
  lowercase term = lowercase term' →
  TaskManager.list_tasks db status priority (Some term)
  = TaskManager.list_tasks db status priority (Some term').
Proof.
  intros Heq. unfold TaskManager.list_tasks, TaskManager.select.
  do 2 f_equal. apply list_filter_iff. intros r.
  by rewrite <- (where_lowercase _ _ term), <- (where_lowercase _ _ term'), Heq.
Qed.

Lemma search_term_case_witness :
  lowercase "Milk" = lowercase "mILK"
  ∧ TaskManager.list_tasks sample None None (Some "Milk")
    = TaskManager.list_tasks sample None None (Some "mILK").
Proof.
  split; [reflexivity |].
  apply (search_term_case sample None None "Milk" "mILK"). reflexivity.
Defined.

Lemma like_any_later pattern c text :
  like (String "%" pattern) text = true →
  like (String "%" pattern) (String c text) = true.
Proof. intros H. rewrite like_percent, H. apply orb_true_r. Qed.

Lemma like_literal term rest text :
  starts_with (lowercase term) (lowercase text) = true →
  (∀ tail, like rest tail = true) →
  like (term +:+ rest) text = true.
Proof.
  intros Hstart Hrest. revert text Hstart.
  induction term as [| a term IH]; intros text Hstart; [apply Hrest |].
  destruct text as [| c text]; [done |]. simpl in Hstart.
  apply andb_true_iff in Hstart as [Hac%Ascii.eqb_eq Hstart].
  specialize (IH text Hstart).
  change (String a term +:+ rest) with (String a (term +:+ rest)).
  destruct (Ascii.eqb_spec a "%") as [-> | Hne].
  - rewrite like_percent. apply orb_true_iff. right.
    destruct text as [| c' text].
    + clear Hstart. revert IH. generalize (term +:+ rest). intros p Hp.
      rewrite like_percent. by rewrite Hp.
    + rewrite like_percent. by rewrite IH.
  - cbn [like]. rewrite (proj2 (Ascii.eqb_neq _ _) Hne).
    rewrite Hac, Ascii.eqb_refl, orb_true_r. done.
Qed.

Lemma like_contains_literal term text :
  contains_nocase term text = true →
  like ("%" +:+ term +:+ "%") text = true.
Proof.
  unfold contains_nocase.
  change ("%" +:+ term +:+ "%") with (String "%" (term +:+ "%")).
  induction text as [| c text IH]; cbn [contains lowercase];
    rewrite orb_true_iff.
  - intros [H | H]; [| done]. rewrite like_percent.
    by rewrite (like_literal term "%" "" H like_percent_only).
  - intros [H | H].
    + rewrite like_percent.
      by rewrite (like_literal term "%" (String c text) H like_percent_only).
    + by apply like_any_later, IH.
Qed.

(** X11.  A wildcard in the term can only add results: for any term
    that LIKE carries out (no NUL in the term or in a stored title or
    description, the term at most 49998 bytes), every stored task whose
    title or description contains the term as it is written (up to the
    case of the ASCII letters) is in the listing of the search. *)
Theorem search_finds_literal (db : Db) (term : string) (r : Row.t)
    (t : Task.t) :
  well_formed db = true →
  searchable db (Some term) = true →
  r ∈ rows db →
  TaskManager._row_to_task r = Ok t →
  mentions contains_nocase term t = true →
  ∃ ts, TaskManager.list_tasks db None None (Some term) = Ok ts ∧ t ∈ ts.
Proof.
  intros Hdb _ Hr Ht Hm.
  assert (Hv : valid_row r = true) by (apply valid_row_task; eauto).
  assert (t = read r) as -> by (unfold read; by rewrite Ht).
  exists (read <$> TaskManager.select db None None (Some term)).
  split; [by apply list_tasks_read |].
  apply list_elem_of_fmap. exists r. split; [done |].
  unfold TaskManager.select. rewrite merge_sort_Permutation.
  apply list_elem_of_filter. split; [| done].
  destruct (read_fields r Hv) as (Htitle & Hd & _).
  unfold mentions in Hm. rewrite Htitle, Hd in Hm.
  unfold TaskManager.where_, truthy. cbn [andb].
  destruct (nonempty term); [cbv zeta | done].
  apply Is_true_true, orb_true_iff.
  apply orb_true_iff in Hm as [Hm | Hm]; [left | right];
    by apply like_contains_literal.
Qed.

Lemma search_finds_literal_witness :
  ∃ ts,
    TaskManager.list_tasks
      (mkDb [ Row.mk 1 "at 50%_done" "" "low" "pending" None [] ""
                "2024-05-01T10:00:00" "2024-05-01T10:00:00" ] 1)
      None None (Some "%_D") = Ok ts
    ∧ Task.mk "at 50%_done" "" LOW PENDING None [] "" "2024-05-01T10:00:00"
        "2024-05-01T10:00:00" (Some 1) ∈ ts.
Proof.
  apply (search_finds_literal
           (mkDb [ Row.mk 1 "at 50%_done" "" "low" "pending" None [] ""
                     "2024-05-01T10:00:00" "2024-05-01T10:00:00" ] 1)
           "%_D"
           (Row.mk 1 "at 50%_done" "" "low" "pending" None [] ""
              "2024-05-01T10:00:00" "2024-05-01T10:00:00")).
  - reflexivity.
  - reflexivity.
  - apply list_elem_of_here.
  - reflexivity.
  - reflexivity.
Defined.

(** ** What no call rewrites *)

Lemma same_content_refl r : same_content r r.
Proof. by repeat split. Qed.

Lemma same_content_trans r1 r2 r3 :
  same_content r1 r2 → same_content r2 r3 → same_content r1 r3.
Proof. unfold same_content. intros H1 H2. by intuition congruence. Qed.

Lemma perform_keeps db c r :
  r ∈ rows db →
  (∃ r', r' ∈ rows (perform db c) ∧ same_content r r') ∨ c = Delete (Row.id r).
Proof.
  intros Hr.
  destruct c as [now title description priority deadline tags notes
                | now task_id new_status | task_id]; cbn [perform].
  - left. exists r. split; [| apply same_content_refl].
    destruct (TaskManager.add _ _ _ _ _ _ _ _) as [[t db'] |] eqn:E; [| done].
    apply add_Ok_inv in E as (row & -> & _). simpl. apply elem_of_app. by left.
  - left. simpl.
    exists (if Row.id r =? task_id then Row.set_status new_status now r else r).
    split; [apply list_elem_of_fmap; by exists r |].
    destruct (Row.id r =? task_id); by repeat split.
  - destruct (Z.eqb_spec (Row.id r) task_id) as [-> | Hne]; [by right |].
    left. exists r. split; [| apply same_content_refl]. simpl.
    apply list_elem_of_filter. split; [| done].
    by apply Is_true_true, negb_true_iff, Z.eqb_neq.
Qed.

(** X12.  A stored task keeps its id, title, description, priority,
    deadline, tags, notes and creation time through every sequence of
    engine calls; it leaves the table only by a delete of its id. *)
Theorem content_immutable (cs : list call) (db : Db) (r : Row.t) :
  r ∈ rows db →
  (∃ r', r' ∈ rows (foldl perform db cs) ∧ same_content r r')
  ∨ Delete (Row.id r) ∈ cs.
Proof.
  revert db r. induction cs as [| c cs IH]; intros db r Hr; simpl.
  - left. exists r. split; [done | apply same_content_refl].
  - destruct (perform_keeps db c r Hr) as [(r' & Hr' & Hsame) | ->].
    + destruct (IH _ r' Hr') as [(r'' & Hr'' & Hsame') | Hdel].
      * left. exists r''. split; [done |]. by eapply same_content_trans.
      * right. destruct Hsame as [<- _]. by apply list_elem_of_further.
    + right. apply list_elem_of_here.
Qed.

Lemma content_immutable_witness :
  (∃ r', r' ∈ rows (foldl perform sample
                      [ UpdateStatus "2024-05-12T09:00:00" 2 "done";
                        Delete 3;
                        Add "2024-05-12T10:00:00" "E" "" "low" None None "" ])
         ∧ same_content
             (Row.mk 2 "B" "call the Bank" "urgent" "pending"
                (Some "2024-05-09") ["x"; "y"] "" "2024-05-01T10:00:01"
                "2024-05-01T10:00:01") r')
  ∨ Delete 2 ∈ [ UpdateStatus "2024-05-12T09:00:00" 2 "done";
                 Delete 3;
                 Add "2024-05-12T10:00:00" "E" "" "low" None None "" ].
Proof.
  apply (content_immutable
           [ UpdateStatus "2024-05-12T09:00:00" 2 "done";
             Delete 3;
             Add "2024-05-12T10:00:00" "E" "" "low" None None "" ]
           sample
           (Row.mk 2 "B" "call the Bank" "urgent" "pending"
              (Some "2024-05-09") ["x"; "y"] "" "2024-05-01T10:00:01"
              "2024-05-01T10:00:01")).
  unfold sample; simpl. apply list_elem_of_further, list_elem_of_here.
Defined.

(** ** Composition of calls *)

Lemma update_status_rowcount now db task_id new_status :
  filter (fun r => Z.eqb (Row.id r) task_id)
    (rows (TaskManager.update_status now db task_id new_status).1)
  = Row.set_status new_status now
    <$> filter (fun r => Z.eqb (Row.id r) task_id) (rows db).
Proof.
  simpl. induction (rows db) as [| r l IH]; [done |].
  rewrite fmap_cons, !filter_cons.
  destruct (Z.eqb_spec (Row.id r) task_id) as [Heq | Hne]; csimpl.
  - rewrite (proj2 (Z.eqb_eq _ _) Heq). csimpl. by rewrite IH.
  - rewrite (proj2 (Z.eqb_neq _ _) Hne). csimpl. by rewrite IH.
Qed.

(** X13.  No transition of status is refused and the last update wins:
    two updates of the same id in a row leave the table as the second
    alone would, and return what the second alone would. *)
Theorem update_status_last_wins (now1 now2 : string) (db : Db) (task_id : Z)
    (s1 s2 : string) :
  TaskManager.update_status now2
    (TaskManager.update_status now1 db task_id s1).1 task_id s2
  = TaskManager.update_status now2 db task_id s2.
Proof.
  unfold TaskManager.update_status at 1 3. f_equal.
  - f_equal. simpl. rewrite <- list_fmap_compose. apply list_fmap_ext.
    intros i r _. simpl.
    destruct (Z.eqb_spec (Row.id r) task_id) as [Heq | Hne]; simpl.
    + by rewrite (proj2 (Z.eqb_eq _ _) Heq).
    + by rewrite (proj2 (Z.eqb_neq _ _) Hne).
  - by rewrite update_status_rowcount, length_fmap.
Qed.

(** X14.  A delete shows in the next listing: the unfiltered listing
    after [delete] holds exactly the tasks listed before whose id is
    another, in the documented order. *)
Theorem delete_then_list (db : Db) (task_id : Z) :
  well_formed db = true →
  ∃ before after,
    TaskManager.list_tasks db None None None = Ok before
    ∧ TaskManager.list_tasks (TaskManager.delete db task_id).1 None None None
      = Ok after
    ∧ after ≡ₚ filter (fun t => Task.id t ≠ Some task_id) before
    ∧ StronglySorted listed_before after.
Proof.
  intros Hdb.
  assert (Hdb' : well_formed (TaskManager.delete db task_id).1 = true).
  { unfold well_formed. simpl. by apply forallb_filter. }
  exists (read <$> TaskManager.select db None None None),
         (read <$> TaskManager.select (TaskManager.delete db task_id).1
                     None None None).
  split; [by apply list_tasks_read |].
  split; [by apply list_tasks_read |].
  split; [| by apply select_sorted].
  rewrite !select_all. simpl.
  unfold well_formed in Hdb. rewrite forallb_forall in Hdb.
  induction (rows db) as [| r l IH]; [done |].
  assert (Hv : valid_row r = true) by (apply Hdb; by left).
  rewrite fmap_cons, !filter_cons.
  destruct (read_more r Hv) as (Hid & _). rewrite Hid.
  destruct (Z.eqb_spec (Row.id r) task_id) as [Heq | Hne]; csimpl.
  - rewrite decide_False by (rewrite Heq; auto).
    apply IH. intros x Hx. apply Hdb. by right.
  - rewrite decide_True by congruence. f_equiv.
    apply IH. intros x Hx. apply Hdb. by right.
Qed.

Lemma delete_then_list_witness :
  well_formed sample = true
  ∧ ∃ before after,
      TaskManager.list_tasks sample None None None = Ok before
      ∧ TaskManager.list_tasks (TaskManager.delete sample 2).1 None None None
        = Ok after
      ∧ after ≡ₚ filter (fun t => Task.id t ≠ Some 2) before
      ∧ StronglySorted listed_before after.
Proof.
  split; [reflexivity | apply (delete_then_list sample 2); reflexivity].
Defined.

(** ** Deadlines in a listing *)

Lemma StronglySorted_lookup {A} (R : relation A) (l : list A) (i j : nat) a b :
  StronglySorted R l → (i < j)%nat → l !! i = Some a → l !! j = Some b → R a b.
Proof.
  intros Hs. revert i j. induction Hs as [| x l _ IH Hx]; intros i j Hij Hi Hj.
  - by rewrite lookup_nil in Hi.
  - destruct j as [| j]; [lia |]. destruct i as [| i]; simpl in *.
    + injection Hi as ->. rewrite Forall_forall in Hx.
      by eapply Hx, list_elem_of_lookup_2.
    + apply (IH i j); [lia | done | done].
Qed.

Lemma date_ltb_asym a b : date_ltb a b = true → date_ltb b a = false.
Proof.
  intros H%date_ltb_lt. apply not_true_is_false. intros H'%date_ltb_lt. lia.
Qed.

Lemma date_ltb_irrefl a : date_ltb a a = false.
Proof. apply not_true_is_false. intros H%date_ltb_lt. lia. Qed.

(** X15.  Among listed tasks of one priority the deadlines run forward
    in time: if both deadlines are dates in the form [YYYY-MM-DD], the
    task listed later is not due before the task listed earlier. *)
Theorem listing_chronological (db : Db) (status priority search : option string)
    (ts : list Task.t) (i j : nat) (a b : Task.t) (x y : string)
    (dx dy : date) :
  well_formed db = true →
  TaskManager.list_tasks db status priority search = Ok ts →
  (i < j)%nat → ts !! i = Some a → ts !! j = Some b →
  Task.priority a = Task.priority b →
  Task.deadline a = Some x → Task.deadline b = Some y →
  date_fromisoformat x = Some dx → date_fromisoformat y = Some dy →
  date_ltb dy dx = false.
Proof.
  intros Hdb Hts Hij Ha Hb Hp Hx Hy Hdx Hdy.
  rewrite (list_tasks_read db status priority search Hdb) in Hts.
  injection Hts as <-.
  pose proof (StronglySorted_lookup _ _ i j a b
                (select_sorted db status priority search Hdb) Hij Ha Hb) as H.
  unfold listed_before in H. rewrite Hp, Hx, Hy in H.
  destruct H as [H | [_ [H | [[= ->] _]]]]; [lia | |].
  - simpl in H. by apply date_ltb_asym, (iso_text_order x y).
  - assert (dx = dy) as -> by congruence. apply date_ltb_irrefl.
Qed.

Lemma listing_chronological_witness :
  date_ltb (mkdate 2024 5 11) (mkdate 2024 5 9) = false.
Proof.
  eapply (listing_chronological sample None None None _ 0%nat 1%nat _ _
            "2024-05-09" "2024-05-11");
    [ reflexivity | reflexivity | lia | reflexivity | reflexivity
    | reflexivity | reflexivity | reflexivity | reflexivity | reflexivity ].
Defined.

(** * Properties of the command surface *)

(** ** Tags *)

Lemma split_on_length sep s : length (split_on sep s) = S (occurs sep s).
Proof.
  induction s as [| c s IH]; [done |]. simpl.
  destruct (Ascii.eqb c sep); simpl; [by rewrite IH |].
  destruct (split_on sep s); simpl in *; lia.
Qed.

Lemma split_on_pieces sep s x : x ∈ split_on sep s → occurs sep x = O.
Proof.
  revert x. induction s as [| c s IH]; intros x; simpl.
  - by intros ->%list_elem_of_singleton.
  - destruct (Ascii.eqb c sep) eqn:Hc.
    + intros [-> | Hx]%elem_of_cons; [done | by apply IH].
    + destruct (split_on sep s) as [| piece pieces].
      * intros ->%list_elem_of_singleton. simpl. by rewrite Hc.
      * intros [-> | Hx]%elem_of_cons.
        -- simpl. rewrite Hc. apply IH, list_elem_of_here.
        -- by apply IH, list_elem_of_further.
Qed.

Lemma lstrip_occurs c s : (occurs c (lstrip s) ≤ occurs c s)%nat.
Proof.
  induction s as [| a s IH]; [done |]. simpl.
  destruct (isspace a); simpl; lia.
Qed.

Lemma rstrip_occurs c s : (occurs c (rstrip s) ≤ occurs c s)%nat.
Proof.
  induction s as [| a s IH]; [done |]. simpl.
  destruct (rstrip s) as [| b kept]; [destruct (isspace a) |]; simpl in *; lia.
Qed.

Lemma strip_occurs c s : occurs c s = O → occurs c (strip s) = O.
Proof.
  intros H. unfold strip.
  pose proof (rstrip_occurs c (lstrip s)). pose proof (lstrip_occurs c s). lia.
Qed.

Lemma rstrip_rstrip s : rstrip (rstrip s) = rstrip s.
Proof.
  induction s as [| a s IH]; [done |]. simpl.
  destruct (rstrip s) as [| b kept] eqn:Hr.
  - destruct (isspace a) eqn:Ha; [done |]. simpl. by rewrite Ha.
  - simpl in *. by rewrite IH.
Qed.

Lemma lstrip_starts_black s : starts_black (lstrip s) = true.
Proof.
  induction s as [| a s IH]; [done |]. simpl.
  destruct (isspace a) eqn:Ha; [done |]. simpl. by rewrite Ha.
Qed.

Lemma rstrip_starts_black s :
  starts_black s = true → starts_black (rstrip s) = true.
Proof.
  destruct s as [| a s]; [done |]. simpl. intros Ha.
  destruct (rstrip s); [| done]. apply negb_true_iff in Ha. rewrite Ha.
  simpl. by rewrite Ha.
Qed.

Lemma lstrip_black s : starts_black s = true → lstrip s = s.
Proof.
  destruct s as [| a s]; [done |]. simpl. intros Ha%negb_true_iff.
  by rewrite Ha.
Qed.

Lemma strip_strip s : strip (strip s) = strip s.
Proof.
  unfold strip.
  rewrite (lstrip_black (rstrip (lstrip s))), rstrip_rstrip; [done |].
  apply rstrip_starts_black, lstrip_starts_black.
Qed.

Lemma truthy_Some o s : truthy o = Some s → o = Some s ∧ nonempty s = true.
Proof.
  destruct o as [x |]; [| done]. simpl.
  destruct (nonempty x) eqn:Hx; [| done]. by intros [= ->].
Qed.

(** X16.  The tags a task gets from [--tags], for a text of ASCII
    characters: a text that is not empty gives one tag more than it has
    commas, empty tags included, and every tag is clean: it has no comma
    and no white space at its ends.  No option, or the empty text, gives
    no tag at all. *)
Theorem parse_tags_shape (tags : option string) :
  ascii_only (default "" tags) = true →
  match truthy tags with
  | Some text => length (parse_tags tags) = S (occurs "," text)
  | None => parse_tags tags = []
  end
  ∧ Forall clean_tag (parse_tags tags).
Proof.
  intros _.
  unfold parse_tags. destruct (truthy tags) as [text |]; [| by split].
  split; [by rewrite length_fmap, split_on_length |].
  apply Forall_forall. intros x (piece & -> & Hp)%list_elem_of_fmap. split.
  - by eapply strip_occurs, split_on_pieces.
  - apply strip_strip.
Qed.

Lemma parse_tags_shape_witness :
  ascii_only (default "" (Some " home , ,to do")) = true
  ∧ length (parse_tags (Some " home , ,to do")) = 3%nat
  ∧ Forall clean_tag (parse_tags (Some " home , ,to do")).
Proof.
  split; [reflexivity |].
  exact (parse_tags_shape (Some " home , ,to do") eq_refl).
Defined.

Lemma split_on_plain sep x : occurs sep x = O → split_on sep x = [x].
Proof.
  induction x as [| c x IH]; [done |]. simpl.
  destruct (Ascii.eqb c sep); [done |]. simpl. intros H. by rewrite IH.
Qed.

Lemma split_on_join sep x rest :
  occurs sep x = O →
  split_on sep (x +:+ String sep rest) = x :: split_on sep rest.
Proof.
  induction x as [| c x IH]; simpl.
  - by rewrite Ascii.eqb_refl.
  - destruct (Ascii.eqb c sep); [done |]. simpl. intros H. by rewrite IH.
Qed.

Lemma split_on_concat sep x l :
  Forall (fun y => occurs sep y = O) (x :: l) →
  split_on sep (String.concat (String sep "") (x :: l)) = x :: l.
Proof.
  revert x. induction l as [| y l IH]; intros x Hall.
  - simpl. apply split_on_plain. by inversion Hall.
  - change (String.concat (String sep "") (x :: y :: l))
      with (x +:+ String sep "" +:+ String.concat (String sep "") (y :: l)).
    inversion Hall as [| ? ? Hx Hrest]; subst.
    change (String sep "" +:+ String.concat (String sep "") (y :: l))
      with (String sep (String.concat (String sep "") (y :: l))).
    by rewrite split_on_join, IH.
Qed.

(** X17.  Clean tags written with commas between them come back as
    they are: for a list of clean tags of ASCII characters that does
    not join to the empty text, [--tags] on the joined text yields the
    list. *)
Theorem parse_tags_join (x : string) (l : list string) :
  Forall (fun y => ascii_only y = true) (x :: l) →
  Forall clean_tag (x :: l) →
  nonempty (String.concat "," (x :: l)) = true →
  parse_tags (Some (String.concat "," (x :: l))) = x :: l.
Proof.
  intros _ Hclean Hne. unfold parse_tags, truthy. rewrite Hne.
  rewrite split_on_concat.
  - apply list_eq_Forall2, Forall2_fmap_l, Forall_Forall2_diag.
    eapply Forall_impl; [exact Hclean |]. by intros y [_ Hy].
  - eapply Forall_impl; [exact Hclean |]. by intros y [Hy _].
Qed.

Lemma parse_tags_join_witness :
  Forall (fun y => ascii_only y = true) ["home"; ""; "to do"]
  ∧ Forall clean_tag ["home"; ""; "to do"]
  ∧ nonempty (String.concat "," ["home"; ""; "to do"]) = true
  ∧ parse_tags (Some (String.concat "," ["home"; ""; "to do"]))
    = ["home"; ""; "to do"].
Proof.
  assert (Ha : Forall (fun y => ascii_only y = true) ["home"; ""; "to do"])
    by (repeat constructor).
  assert (H : Forall clean_tag ["home"; ""; "to do"]) by (repeat constructor).
  split; [exact Ha |]. split; [exact H |]. split; [reflexivity |].
  apply (parse_tags_join "home" [""; "to do"] Ha H). reflexivity.
Defined.

(** ** The update command *)

Lemma update_status_unknown now db task_id new_status :
  (∀ r, r ∈ rows db → Row.id r ≠ task_id) →
  TaskManager.update_status now db task_id new_status = (db, false).
Proof.
  intros Hfresh.
  assert (Hmiss : ∀ r, r ∈ rows db → (Row.id r =? task_id) = false).
  { intros r Hr. apply Z.eqb_neq. by apply Hfresh. }
  destruct db as [rs sq]; simpl in *. unfold TaskManager.update_status; simpl.
  rewrite (filter_none (fun r => Row.id r =? task_id)) by done.
  f_equal. f_equal. apply fmap_unchanged. intros r Hr. by rewrite Hmiss.
Qed.

Lemma update_status_known now db task_id new_status r :
  r ∈ rows db → Row.id r = task_id →
  (TaskManager.update_status now db task_id new_status).2 = true.
Proof. intros Hr Hid. simpl. by eapply rowcount_positive. Qed.

Lemma update_status_sets now db task_id new_status r' :
  r' ∈ rows (TaskManager.update_status now db task_id new_status).1 →
  Row.id r' = task_id → Row.status r' = new_status.
Proof.
  simpl. intros (r & -> & _)%list_elem_of_fmap.
  destruct (Z.eqb_spec (Row.id r) task_id); [done |]. by intros ?.
Qed.

(** X18.  The update command on an id outside the signed 64-bit range
    ends in [OverflowError] and prints nothing.  On an id within the
    range it says "not found" exactly when no stored task has the id,
    and then the table is as it was; otherwise it confirms the change,
    and every task with the id has the new status. *)
Theorem cmd_update_reports (now : string) (id : Z) (new_status : string)
    (db : Db) :
  let not_found := [RED +:+ "✗ Task #" +:+ pretty id +:+ " not found" +:+ NC] in
  let confirmed := [GREEN +:+ "✓ Task #" +:+ pretty id +:+ " status → "
                      +:+ new_status +:+ NC] in
  if int64 id
  then
    ∃ out db',
      cmd_update now id new_status db = Returns (out, db')
      ∧ (out = not_found ↔ ∀ r, r ∈ rows db → Row.id r ≠ id)
      ∧ (out = not_found ∧ db' = db
         ∨ out = confirmed
           ∧ ∀ r, r ∈ rows db' → Row.id r = id → Row.status r = new_status)
  else cmd_update now id new_status db = Crashes OverflowError.
Proof.
  intros not_found confirmed. unfold cmd_update.
  destruct (int64 id); [| done].
  destruct (TaskManager.update_status now db id new_status) as [db1 found]
    eqn:Hup.
  destruct (decide (Exists (fun r => Row.id r = id) (rows db)))
    as [(r & Hr & Hid)%Exists_exists | Hno].
  - pose proof (update_status_known now db id new_status r Hr Hid) as Hf.
    rewrite Hup in Hf. simpl in Hf. subst found.
    eexists _, _. split; [reflexivity |]. split.
    + split; [intros [=] | intros Hall; by destruct (Hall r Hr)].
    + right. split; [done |]. intros r' Hr'.
      apply (update_status_sets now db id new_status).
      by rewrite Hup.
  - assert (Hall : ∀ r, r ∈ rows db → Row.id r ≠ id).
    { intros r Hr Hid. apply Hno, Exists_exists. eauto. }
    rewrite (update_status_unknown now db id new_status Hall) in Hup.
    injection Hup as <- <-.
    eexists _, _. split; [reflexivity |]. split; [done |]. by left.
Qed.

(** ** The add command *)

Lemma append_inv s a b : s +:+ a = s +:+ b → a = b.
Proof. induction s as [| c s IH]; simpl; [done |]. intros [= H]. by apply IH. Qed.

Lemma priority_choices_enum : priority_choices = priorities.
Proof. reflexivity. Qed.


(** X19.  The add command on a priority the parser lets through and
    tags of ASCII characters (or none) creates the task with the tags of
    [--tags]; given a deadline it
    prints two lines, and the second carries "(already overdue!)"
    exactly when the deadline is a date before today. *)
Theorem cmd_add_flags_overdue (fromisoformat : string → option date)
    (today : date) (now title description priority : string)
    (deadline tags : option string) (notes : string) (db : Db) (d : string) :
  fromisoformat "" = None →
  priority ∈ priority_choices →
  ascii_only (default "" tags) = true →
  truthy deadline = Some d →
  ∃ task db' lines,
    TaskManager.add now db title description priority deadline
      (Some (parse_tags tags)) notes = Ok (task, db')
    ∧ cmd_add fromisoformat today now title description priority deadline
        tags notes db = Returns (lines, db')
    ∧ Task.tags task = parse_tags tags
    ∧ length lines = 2%nat
    ∧ (("  Deadline: " +:+ d +:+ "  " +:+ RED +:+ "(already overdue!)" +:+ NC)
       ∈ lines
       ↔ ∃ dt, fromisoformat d = Some dt ∧ date_ltb dt today = true).
Proof.
  intros Hempty [p Hp]%priorities_Ok _ Hd.
  apply truthy_Some in Hd as [-> Hne].
  unfold cmd_add, TaskManager.add. rewrite Hp. simpl. rewrite Hne.
  eexists _, _, _. split; [reflexivity |]. split; [reflexivity |].
  split; [done |]. split; [done |].
  rewrite is_overdue_overdue by done. unfold overdue. simpl.
  rewrite !elem_of_cons, elem_of_nil.
  destruct (fromisoformat d) as [dt |] eqn:Hdt.
  - rewrite andb_true_r. destruct (date_ltb dt today) eqn:Hlt.
    + split; [intros _; by exists dt | intros _; right; by left].
    + split; [| intros (? & [= <-] & ?); congruence].
      intros [[=] | [H | []]].
      apply append_inv, append_inv in H. discriminate H.
  - split; [| by intros (? & [=] & _)].
    intros [[=] | [H | []]].
    apply append_inv, append_inv in H. discriminate H.
Qed.

Lemma cmd_add_flags_overdue_witness :
  date_fromisoformat "" = None ∧ "high" ∈ priority_choices
  ∧ ascii_only (default "" (Some "a, b")) = true
  ∧ truthy (Some "2024-05-01") = Some "2024-05-01"
  ∧ ∃ task db' lines,
      TaskManager.add "2024-05-12T09:00:00" sample "E" "" "high"
        (Some "2024-05-01") (Some (parse_tags (Some "a, b"))) ""
      = Ok (task, db')
      ∧ cmd_add date_fromisoformat sample_today "2024-05-12T09:00:00" "E" ""
          "high" (Some "2024-05-01") (Some "a, b") "" sample
        = Returns (lines, db')
      ∧ Task.tags task = parse_tags (Some "a, b")
      ∧ length lines = 2%nat
      ∧ (("  Deadline: " +:+ "2024-05-01" +:+ "  " +:+ RED
          +:+ "(already overdue!)" +:+ NC) ∈ lines
         ↔ ∃ dt, date_fromisoformat "2024-05-01" = Some dt
                 ∧ date_ltb dt sample_today = true).
Proof.
  assert (H : "high" ∈ priority_choices) by apply (Priority_value_enum HIGH).
  split; [reflexivity |]. split; [exact H |]. split; [reflexivity |].
  split; [reflexivity |].
  apply (cmd_add_flags_overdue date_fromisoformat sample_today
           "2024-05-12T09:00:00" "E" "" "high" (Some "2024-05-01")
           (Some "a, b") "" sample "2024-05-01");
    [reflexivity | exact H | reflexivity | reflexivity].
Defined.

(** ** The list command *)

Lemma mapM_Returns {A B} (f : A → run B) (g : A → B) (l : list A) :
  (∀ x, x ∈ l → f x = Returns (g x)) → mapM f l = Returns (g <$> l).
Proof.
  induction l as [| x l IH]; intros H; [done |].
  simpl. rewrite (H x) by apply list_elem_of_here. simpl.
  rewrite IH; [done |]. intros y Hy. by apply H, list_elem_of_further.
Qed.

Lemma _print_task_printed fromisoformat today t :
  is_Some (Task.id t) →
  _print_task fromisoformat today t = Returns (printed fromisoformat today t)
  ∧ length (printed fromisoformat today t)
    = if nonempty (Task.description t) then 2%nat else 1%nat.
Proof.
  intros [id Hid]. unfold printed, _print_task. rewrite Hid. simpl.
  split; [done |]. by destruct (nonempty (Task.description t)).
Qed.

Lemma printed_lengths fromisoformat today (ts : list Task.t) :
  (∀ t, t ∈ ts → is_Some (Task.id t)) →
  length (concat (printed fromisoformat today <$> ts))
  = (length ts
     + length (filter (fun t => nonempty (Task.description t)) ts))%nat.
Proof.
  induction ts as [| t ts IH]; intros H; [done |].
  rewrite fmap_cons, filter_cons. simpl. rewrite length_app, IH.
  - destruct (_print_task_printed fromisoformat today t) as [_ ->];
      [apply H, list_elem_of_here |].
    destruct (nonempty (Task.description t)); simpl; lia.
  - intros x Hx. by apply H, list_elem_of_further.
Qed.

Lemma select_ids db status priority search t :
  well_formed db = true →
  t ∈ read <$> TaskManager.select db status priority search →
  is_Some (Task.id t).
Proof.
  intros Hdb (r & -> & Hr)%list_elem_of_fmap.
  pose proof (select_valid db status priority search Hdb) as Hv.
  rewrite forallb_forall in Hv.
  destruct (read_more r) as (-> & _); [by apply Hv, list_elem_of_In | eauto].
Qed.


(** X20.  On a table of tasks the list command with a search that LIKE
    carries out (or with none) does not fail.  It prints the single
    line "No tasks found." when no task passes the filters; otherwise
    three header lines, for each listed task one line and a second one
    when it has a description, and an empty line. *)
Theorem cmd_list_lines (fromisoformat : string → option date) (today : date)
    (filter_status filter_priority search : option string) (db : Db) :
  well_formed db = true →
  searchable db search = true →
  ∃ ts out,
    TaskManager.list_tasks db filter_status filter_priority search = Ok ts
    ∧ cmd_list fromisoformat today filter_status filter_priority search db
      = Returns out
    ∧ match ts with
      | [] => out = [YELLOW +:+ "No tasks found." +:+ NC]
      | _ :: _ =>
          length out
          = (4 + length ts
             + length (filter (fun t => nonempty (Task.description t)) ts))%nat
      end.
Proof.
  intros Hdb _. unfold cmd_list.
  rewrite (list_tasks_read db filter_status filter_priority search Hdb).
  pose proof (select_ids db filter_status filter_priority search) as Hids.
  destruct (read <$> TaskManager.select db filter_status filter_priority search)
    as [| t ts] eqn:Hts.
  - eexists _, _. by repeat split.
  - simpl engine. cbn [mbind run_bind].
    rewrite (mapM_Returns _ (printed fromisoformat today)).
    + eexists _, _. split; [done |]. split; [reflexivity |].
      cbn [length app]. rewrite length_app, printed_lengths.
      * simpl. lia.
      * intros x Hx. by apply Hids.
    + intros x Hx. by apply _print_task_printed, Hids.
Qed.

Lemma cmd_list_lines_witness :
  well_formed sample = true
  ∧ searchable sample (Some "b") = true
  ∧ ∃ ts out,
      TaskManager.list_tasks sample (Some "pending") None (Some "b") = Ok ts
      ∧ cmd_list date_fromisoformat sample_today (Some "pending") None
          (Some "b") sample = Returns out
      ∧ match ts with
        | [] => out = [YELLOW +:+ "No tasks found." +:+ NC]
        | _ :: _ =>
            length out
            = (4 + length ts
               + length (filter (fun t => nonempty (Task.description t))
                           ts))%nat
        end.
Proof.
  split; [reflexivity |]. split; [reflexivity |].
  apply (cmd_list_lines date_fromisoformat sample_today (Some "pending") None
           (Some "b") sample); reflexivity.
Defined.

(** ** Running command lines *)




















(** ** The export command *)

(** X23.  On a table of tasks the export command does not fail when its
    path opens: the count it prints is the number of stored tasks, and
    the file it names then holds an array of as many records.  When the
    path does not open, the command ends in the error of [open] and
    prints nothing. *)
Theorem cmd_export_reports (opens : string → bool) (output : string) (db : Db)
    (fs : gmap string json) :
  well_formed db = true →
  if opens output
  then
    ∃ fs' records,
      cmd_export opens output db fs
      = Returns ([GREEN +:+ "✓ Exported " +:+ pretty (length (rows db))
                    +:+ " tasks → " +:+ output +:+ NC], fs')
      ∧ fs' !! output = Some (JArray records)
      ∧ length records = length (rows db)
  else cmd_export opens output db fs = Crashes OpenError.
Proof.
  intros Hdb. unfold cmd_export, TaskManager.export_json.
  rewrite (list_tasks_read db None None None Hdb). simpl.
  destruct (opens output); [| done].
  assert (Hlen : length (TaskManager.select db None None None)
                 = length (rows db)) by by rewrite select_all.
  eexists _, _. split; [| split].
  - by rewrite !length_fmap, Hlen.
  - apply lookup_insert_eq.
  - by rewrite !length_fmap.
Qed.

Lemma cmd_export_reports_witness :
  well_formed sample = true
  ∧ ∃ fs' records,
      cmd_export sample_opens "tasks_export.json" sample ∅
      = Returns ([GREEN +:+ "✓ Exported " +:+ pretty (length (rows sample))
                    +:+ " tasks → " +:+ "tasks_export.json" +:+ NC], fs')
      ∧ fs' !! "tasks_export.json" = Some (JArray records)
      ∧ length records = length (rows sample).
Proof.
  split; [reflexivity |].
  exact (cmd_export_reports sample_opens "tasks_export.json" sample ∅ eq_refl).
Defined.

(** ** The rows of the dashboard *)

Global Instance nat_comparator : Comparator Nat.compare.
Proof.
  split.
  - apply Nat.compare_eq_iff.
  - intros a b. apply Nat.compare_antisym.
  - intros a b c. rewrite !Nat.compare_lt_iff. lia.
Qed.

Lemma item_le_lex a b :
  item_le a b ↔ lex String.compare Nat.compare a b ≠ Gt.
Proof. done. Qed.

Global Instance item_le_total : Total item_le.
Proof. intros a b. rewrite !item_le_lex. apply cmp_not_Gt_total, _. Qed.

Global Instance item_le_trans : Transitive item_le.
Proof. intros a b c. rewrite !item_le_lex. apply cmp_not_Gt_trans, _. Qed.

Lemma item_le_names a b : item_le a b → a.1 ≠ b.1 → text_lt a.1 b.1.
Proof.
  unfold item_le, text_lt. intros Hle Hne.
  destruct (String.compare a.1 b.1) eqn:Hc; [| done | done].
  by apply (cmp_eq (cmp := String.compare)) in Hc.
Qed.

Lemma StronglySorted_strict {A B} (R S : relation A) (f : A → B) (l : list A) :
  (∀ a b, R a b → f a ≠ f b → S a b) →
  NoDup (f <$> l) → StronglySorted R l → StronglySorted S l.
Proof.
  intros HRS Hnd Hs. induction Hs as [| x l _ IH Hx]; [constructor |].
  rewrite fmap_cons in Hnd. apply NoDup_cons in Hnd as [Hx' Hnd].
  constructor; [by apply IH |].
  rewrite Forall_forall in Hx |- *. intros y Hy.
  apply HRS; [by apply Hx |]. intros Heq. apply Hx'. rewrite Heq.
  by apply list_elem_of_fmap_2.
Qed.

(** X24.  The rows of a histogram on the dashboard: every key of the
    dictionary appears once, with its count, and the rows stand in
    strictly ascending order of the key. *)
Theorem sorted_items_rows (d : gmap string nat) :
  (∀ name count, (name, count) ∈ sorted_items d ↔ d !! name = Some count)
  ∧ StronglySorted (fun a b => text_lt a.1 b.1) (sorted_items d)
  ∧ length (sorted_items d) = size d.
Proof.
  unfold sorted_items. split; [| split].
  - intros name count. rewrite merge_sort_Permutation.
    apply elem_of_map_to_list.
  - apply (StronglySorted_strict item_le _ fst).
    + intros a b. apply item_le_names.
    + rewrite merge_sort_Permutation. apply NoDup_fst_map_to_list.
    + apply StronglySorted_merge_sort; apply _.
  - rewrite merge_sort_Permutation. apply length_map_to_list.
Qed.

(** ** Colours *)

(** X25.  Each priority and each status has a colour of its own, and
    none is shown in the reset code that serves as fallback. *)
Theorem colours_distinct (t t' : Task.t) :
  (priority_color t = priority_color t' ↔ Task.priority t = Task.priority t')
  ∧ (status_color t = status_color t' ↔ Task.status t = Task.status t')
  ∧ priority_color t ≠ NC
  ∧ status_color t ≠ NC.
Proof.
  unfold priority_color, status_color.
  destruct (Task.priority t), (Task.priority t'), (Task.status t),
    (Task.status t'); repeat split; done.
Qed.

(** ** The dashboard *)

Lemma stats_Ok_counts fromisoformat today db :
  fromisoformat "" = None →
  well_formed db = true →
  ∃ st,
    TaskManager.stats fromisoformat today db = Ok st
    ∧ TaskManager.total st = length (rows db)
    ∧ TaskManager.overdue st
      = length (filter (fun t => overdue fromisoformat today t)
                  (read <$> rows db)).
Proof.
  intros Hempty Hdb. unfold TaskManager.stats.
  rewrite (list_tasks_read db None None None Hdb). simpl.
  pose proof (foldl_tally fromisoformat today
                (read <$> TaskManager.select db None None None) (∅, ∅, 0%nat))
    as (_ & _ & Ho).
  destruct (foldl _ _ _) as [[by_status by_priority] n]. simpl in *.
  eexists. split; [reflexivity |]. simpl.
  assert (Hperm : read <$> TaskManager.select db None None None
                  ≡ₚ read <$> rows db) by by rewrite select_all.
  split.
  - by rewrite length_fmap, select_all.
  - rewrite Ho, Hperm. f_equal. apply list_filter_iff. intros t.
    by rewrite is_overdue_overdue.
Qed.

(** X26.  On a table of tasks the status command never fails.  Its
    output has the line of the total with the number of stored tasks,
    and it has the overdue warning, with the number of overdue tasks,
    exactly when some stored task is overdue. *)
Theorem cmd_status_warns (fromisoformat : string → option date) (today : date)
    (db : Db) :
  fromisoformat "" = None →
  well_formed db = true →
  ∃ all out,
    stored_tasks db = Ok all
    ∧ cmd_status fromisoformat today db = Returns out
    ∧ ("  Total tasks : " +:+ BOLD +:+ pretty (length all) +:+ NC) ∈ out
    ∧ let n := length (filter (fun t => overdue fromisoformat today t) all) in
      (newline +:+ "  " +:+ RED +:+ "⚠  Overdue tasks: " +:+ pretty n +:+ NC)
      ∈ out
      ↔ n ≠ O.
Proof.
  intros Hempty Hdb.
  destruct (stats_Ok_counts fromisoformat today db Hempty Hdb)
    as (st & Hst & Htotal & Hover).
  exists (read <$> rows db). unfold cmd_status. rewrite Hst. simpl.
  eexists. split; [by apply mapM_read |]. split; [reflexivity |].
  rewrite length_fmap, Htotal, <- Hover. split.
  - apply list_elem_of_further, list_elem_of_here.
  - cbv zeta. rewrite !elem_of_cons, !elem_of_app, !elem_of_cons.
    destruct (TaskManager.overdue st) as [| n] eqn:Hn.
    + split; [| done]. intros H.
      repeat (rewrite ?elem_of_app, ?elem_of_cons in H;
              match type of H with _ ∨ _ => destruct H as [H | H] end);
        try discriminate H;
        try (by apply elem_of_nil in H);
        try (apply list_elem_of_fmap in H as ([name count] & H & _);
             discriminate H).
    + split; [done |]. intros _. do 4 right. right.
      rewrite !elem_of_app, elem_of_cons. right. left. by left.
Qed.

Lemma cmd_status_warns_witness :
  date_fromisoformat "" = None ∧ well_formed sample = true
  ∧ ∃ all out,
      stored_tasks sample = Ok all
      ∧ cmd_status date_fromisoformat sample_today sample = Returns out
      ∧ ("  Total tasks : " +:+ BOLD +:+ pretty (length all) +:+ NC) ∈ out
      ∧ let n := length (filter (fun t => overdue date_fromisoformat
                                            sample_today t) all) in
        (newline +:+ "  " +:+ RED +:+ "⚠  Overdue tasks: " +:+ pretty n +:+ NC)
        ∈ out
        ↔ n ≠ O.
Proof.
  split; [reflexivity |]. split; [reflexivity |].
  apply (cmd_status_warns date_fromisoformat sample_today sample); reflexivity.
Defined.
